(** * history-gen: the unified-diff change extractor

    A shallow embedding of [iter_changes] from [git_history_gen/cli.py],
    the generator that turns the lines of [git show --unified=0] into
    line-numbered change records, together with the Python string
    primitives it is built from.

    Conventions.
    - A Python [str] is a Stdlib [string]; a character is an [ascii] read
      as the code point 0..255 (the Latin-1 range).  In that range the
      decimal digits are exactly [0]..[9], and the white space that
      [str.strip()] removes and the white space that [int()] skips are the
      two sets written out below.
    - A Python [int] is a [Z].
    - [None]-able locals are [option]s.
    - Operations that can raise return a [res]; [try: ... except Exception:]
      is [try_except].
    - The generator is run to exhaustion: [iter_changes] returns the list of
      the records it yields, or the exception that escapes it. *)

From Stdlib Require Import String Ascii List ZArith Bool Lia Arith.
From Stdlib Require Import DecimalString Permutation.
From Stdlib Require Decimal DecimalPos DecimalZ.
Import ListNotations.
Local Open Scope string_scope.
Local Open Scope list_scope.
Local Open Scope Z_scope.

(** ** Exceptions *)

Module Py.

(** The exceptions the modelled operations raise.  Both derive from
    [Exception], so a handler [except Exception] catches either. *)
Inductive exn : Type :=
| IndexError
| ValueError.

Inductive res (A : Type) : Type :=
| Ok (a : A)
| Raise (e : exn).

Arguments Ok {A} a.
Arguments Raise {A} e.

Definition ret {A : Type} (a : A) : res A := Ok a.

Definition bind {A B : Type} (m : res A) (k : A -> res B) : res B :=
  match m with
  | Ok a => k a
  | Raise e => Raise e
  end.

(** [try: body except Exception: handler] *)
Definition try_except {A : Type} (body : res A) (handler : exn -> res A) : res A :=
  match body with
  | Ok a => Ok a
  | Raise e => handler e
  end.

End Py.

Import Py.

Declare Scope py_scope.
Delimit Scope py_scope with py.
Notation "x <- m ;; k" := (bind m (fun x => k))
  (at level 61, m at next level, right associativity) : py_scope.
Notation "' pat <- m ;; k" := (bind m (fun x => match x with pat => k end))
  (at level 61, pat pattern, m at next level, right associativity) : py_scope.
Local Open Scope py_scope.

(** ** Characters *)

Definition code (c : ascii) : N := N_of_ascii c.

Definition newline : ascii := ascii_of_N 10.

(** The string literal ["\n"]. *)
Definition NL : string := String newline EmptyString.

(** [str.isspace] on one character, code points below 256: the characters
    [str.strip()] removes. *)
Definition is_space (c : ascii) : bool :=
  let n := code c in
  ((9 <=? n) && (n <=? 13) || (28 <=? n) && (n <=? 32)
   || (n =? 133) || (n =? 160))%N.

(** The white space [int()] accepts around the number: the C locale's
    (9..13 and 32), and U+0085 and U+00A0, which the conversion of a
    non-ASCII [str] turns into a space first. *)
Definition is_int_space (c : ascii) : bool :=
  let n := code c in
  ((9 <=? n) && (n <=? 13) || (n =? 32) || (n =? 133) || (n =? 160))%N.

Definition is_digit (c : ascii) : bool :=
  let n := code c in ((48 <=? n) && (n <=? 57))%N.

Definition digit_value (c : ascii) : Z := Z.of_N (code c) - 48.

(** ** Strings *)

(** [s.startswith(p)] *)
Fixpoint startswith (s p : string) {struct s} : bool :=
  match p with
  | EmptyString => true
  | String a p' =>
      match s with
      | EmptyString => false
      | String b s' => Ascii.eqb b a && startswith s' p'
      end
  end.

(** [p in s] *)
Fixpoint contains (s p : string) {struct s} : bool :=
  startswith s p ||
  match s with
  | EmptyString => false
  | String _ s' => contains s' p
  end.

(** [s[n:]] for [n >= 0] *)
Fixpoint drop (n : nat) (s : string) : string :=
  match n, s with
  | O, _ => s
  | S _, EmptyString => EmptyString
  | S k, String _ s' => drop k s'
  end.

(** [c in chars] for a character *)
Fixpoint mem (c : ascii) (chars : string) : bool :=
  match chars with
  | EmptyString => false
  | String a r => Ascii.eqb c a || mem c r
  end.

Fixpoint lstrip_with (p : ascii -> bool) (s : string) : string :=
  match s with
  | EmptyString => EmptyString
  | String c s' => if p c then lstrip_with p s' else s
  end.

Fixpoint rstrip_with (p : ascii -> bool) (s : string) : string :=
  match s with
  | EmptyString => EmptyString
  | String c s' =>
      match rstrip_with p s' with
      | EmptyString => if p c then EmptyString else String c EmptyString
      | r => String c r
      end
  end.

(** [s.rstrip(chars)] *)
Definition rstrip (s chars : string) : string :=
  rstrip_with (fun c => mem c chars) s.

(** [s.strip()] *)
Definition strip (s : string) : string :=
  rstrip_with is_space (lstrip_with is_space s).

(** [s.split(sep)] for a non-empty [sep] (the source only passes the
    literals ["@@"], [" "] and [","]): the pieces between the leftmost,
    non-overlapping occurrences of [sep].  [skip] counts the characters of
    a matched separator still to be passed over. *)
Fixpoint split_from (sep : string) (skip : nat) (s : string) : list string :=
  match s with
  | EmptyString => [EmptyString]
  | String c s' =>
      match skip with
      | S k => split_from sep k s'
      | O =>
          if startswith s sep
          then EmptyString :: split_from sep (Nat.pred (String.length sep)) s'
          else match split_from sep O s' with
               | piece :: pieces => String c piece :: pieces
               | [] => [String c EmptyString]
               end
      end
  end.

Definition split (s sep : string) : list string := split_from sep O s.

(** [xs[i]] *)
Definition index {A : Type} (xs : list A) (i : nat) : res A :=
  match nth_error xs i with
  | Some x => Ok x
  | None => Raise IndexError
  end.

(** [a, b = xs] *)
Definition unpack2 {A : Type} (xs : list A) : res (A * A) :=
  match xs with
  | [a; b] => Ok (a, b)
  | _ => Raise ValueError
  end.

(** ** [int(s)] *)

(** CPython's default [sys.get_int_max_str_digits()]. *)
Definition int_max_str_digits : nat := 4300.

(** The digits of a decimal literal, single underscores allowed between
    them: the value, the number of digits and the unread rest. *)
Fixpoint scan_digits (s : string) (prev_underscore : bool) (acc : Z) (n : nat)
  : option (Z * nat * string) :=
  match s with
  | EmptyString => if prev_underscore then None else Some (acc, n, EmptyString)
  | String c s' =>
      if is_digit c then scan_digits s' false (10 * acc + digit_value c) (S n)
      else if Ascii.eqb c "_" then
        if prev_underscore then None else scan_digits s' true acc n
      else if prev_underscore then None else Some (acc, n, s)
  end.

Definition int (s : string) : res Z :=
  let s1 := lstrip_with is_int_space s in
  let '(negative, s2) :=
    match s1 with
    | String "+" t => (false, t)
    | String "-" t => (true, t)
    | _ => (false, s1)
    end in
  if startswith s2 "_" then Raise ValueError
  else
    match scan_digits s2 false 0 0 with
    | None => Raise ValueError
    | Some (v, n, rest) =>
        if (n =? 0)%nat then Raise ValueError
        else if (int_max_str_digits <? n)%nat then Raise ValueError
        else
          match lstrip_with is_int_space rest with
          | EmptyString => Ok (if negative then - v else v)
          | String _ _ => Raise ValueError
          end
    end.

(** ** Data model *)

(** The ['type'] entry of a yielded dict: ['add'] or ['del']. *)
Inductive ChangeType : Type :=
| Add
| Del.

(** A yielded dict [{'file': .., 'line': .., 'type': .., 'text': ..}]. *)
Record ChangeRecord : Type := mkChange {
  file : string;
  line : Z;
  type : ChangeType;
  text : string
}.

(** The generator's locals. *)
Record Cursor : Type := mkCursor {
  cur_file : option string;
  old_line : option Z;
  new_line : option Z
}.

(** [cur_file = None; old_line = None; new_line = None] *)
Definition init : Cursor := mkCursor None None None.

Definition set_file (c : Cursor) (f : option string) : Cursor :=
  mkCursor f (old_line c) (new_line c).

Definition set_lines (c : Cursor) (o n : option Z) : Cursor :=
  mkCursor (cur_file c) o n.

(** ** The extractor *)

(** The body of the [try] block: the two start numbers of
    [@@ -old_start,old_count +new_start,new_count @@]. *)
Definition parse_hunk_header (line : string) : res (Z * Z) :=
  piece <- index (split line "@@") 1 ;;
  let header := strip piece in
  '(left_, right_) <- unpack2 (split header " ") ;;
  l0 <- index (split left_ ",") 0 ;;
  old_start <- int (drop 1 l0) ;;
  r0 <- index (split right_ ",") 0 ;;
  new_start <- int (drop 1 r0) ;;
  ret (old_start, new_start).

(** One iteration of the [for raw in diff_lines] loop: the locals after it
    and the records it yields.  Each [continue] ends the iteration; the
    guard [if cur_file is None or old_line is None or new_line is None] is
    the [match] on the three locals. *)
Definition step (c : Cursor) (raw : string) : res (Cursor * list ChangeRecord) :=
  let line := rstrip raw NL in
  if startswith line "diff --git " then
    ret (set_file c None, [])
  else if startswith line "+++ " then
    let path := drop 4 line in
    ret (set_file c (if startswith path "b/" then Some (drop 2 path) else None), [])
  else if startswith line "--- " then
    ret (c, [])
  else if contains line "Binary files" || startswith line "GIT binary patch" then
    ret (set_file c None, [])
  else if startswith line "@@ " then
    try_except
      ('(old_start, new_start) <- parse_hunk_header line ;;
       ret (set_lines c (Some old_start) (Some new_start), []))
      (fun _ => ret (set_lines c None None, []))
  else
    match cur_file c, old_line c, new_line c with
    | Some f, Some o, Some n =>
        if String.eqb line "" || startswith line "\ No newline at end of file" then
          ret (c, [])
        else if startswith line "+" then
          ret (set_lines c (Some o) (Some (n + 1)), [mkChange f n Add (drop 1 line)])
        else if startswith line "-" then
          ret (set_lines c (Some (o + 1)) (Some n), [mkChange f o Del (drop 1 line)])
        else
          ret (set_lines c (Some (o + 1)) (Some (n + 1)), [])
    | _, _, _ => ret (c, [])
    end.

(** The loop from a given cursor: the final locals and everything yielded. *)
Fixpoint run (c : Cursor) (diff_lines : list string) : res (Cursor * list ChangeRecord) :=
  match diff_lines with
  | [] => ret (c, [])
  | raw :: rest =>
      '(c1, out1) <- step c raw ;;
      '(c2, out2) <- run c1 rest ;;
      ret (c2, out1 ++ out2)
  end.

Definition iter_changes (diff_lines : list string) : res (list ChangeRecord) :=
  '(_, out) <- run init diff_lines ;;
  ret out.

(** ** Line classification

    The order in which the loop body tests a line, as a function: what
    rule the line falls under.  [step] does not use it; the lemmas
    [step_*] below relate the two. *)

Inductive LineKind : Type :=
| FileSep      (* [diff --git ...] *)
| NewPath      (* [+++ ...] *)
| OldPath      (* [--- ...] *)
| Binary       (* [Binary files] anywhere, or [GIT binary patch] *)
| Hunk         (* [@@ ...] *)
| Content.     (* everything else *)

Definition kind (raw : string) : LineKind :=
  let line := rstrip raw NL in
  if startswith line "diff --git " then FileSep
  else if startswith line "+++ " then NewPath
  else if startswith line "--- " then OldPath
  else if contains line "Binary files" || startswith line "GIT binary patch" then Binary
  else if startswith line "@@ " then Hunk
  else Content.

(** The file a [+++ ] line names: [path[2:] if path.startswith("b/") else None]. *)
Definition new_path (raw : string) : option string :=
  let path := drop 4 (rstrip raw NL) in
  if startswith path "b/" then Some (drop 2 path) else None.

(** What the [try]/[except] leaves in the two counters. *)
Definition hunk_counters (raw : string) : option Z * option Z :=
  match parse_hunk_header (rstrip raw NL) with
  | Ok (o, n) => (Some o, Some n)
  | Raise _ => (None, None)
  end.

(** ** Conditions on the input used in the statements below *)




(** No line of the input is a hunk header that parses. *)
Definition no_valid_hunk (diff_lines : list string) : bool :=
  forallb (fun raw =>
             match kind raw, parse_hunk_header (rstrip raw NL) with
             | Hunk, Ok _ => false
             | _, _ => true
             end) diff_lines.

(** No line of the input starts with [+++ b/]. *)
Definition no_new_file (diff_lines : list string) : bool :=
  forallb (fun raw => negb (startswith raw "+++ b/")) diff_lines.

(** In the lines after a [diff --git ] line, no content line comes between
    a [+++ b/] line and the first hunk header.  [named] tells whether
    [cur_file] is set at this point. *)
Fixpoint hunk_first (named : bool) (diff_lines : list string) : bool :=
  match diff_lines with
  | [] => true
  | raw :: rest =>
      match kind raw with
      | Hunk => true
      | FileSep | Binary => hunk_first false rest
      | NewPath =>
          hunk_first (match new_path raw with Some _ => true | None => false end) rest
      | OldPath => hunk_first named rest
      | Content => negb named && hunk_first named rest
      end
  end.

(** A well-formed diff: it opens with a [diff --git ] line, and the
    changed lines of its file come under a hunk header. *)
Definition well_formed (diff : list string) : bool :=
  match diff with
  | [] => false
  | raw :: rest =>
      match kind raw with
      | FileSep => hunk_first false rest
      | _ => false
      end
  end.

(** ** Callers used in the statements below *)

(** [for d in diffs: out += list(iter_changes(d))]: each diff extracted on
    its own, the results concatenated in order. *)
Fixpoint extract_each (diffs : list (list string)) : res (list ChangeRecord) :=
  match diffs with
  | [] => ret []
  | d :: rest =>
      out <- iter_changes d ;;
      outs <- extract_each rest ;;
      ret (out ++ outs)
  end.

(** ** The rest of [cli.py]: more string primitives *)

(** [str(n)], also what [f"{n}"] writes for an [int]. *)
Definition str (n : Z) : string := NilZero.string_of_int (Z.to_int n).

(** [s[:n]] for [n >= 0] *)
Fixpoint take (n : nat) (s : string) : string :=
  match n, s with
  | O, _ => EmptyString
  | S _, EmptyString => EmptyString
  | S k, String c s' => String c (take k s')
  end.

(** [s.replace(old, new)] for a non-empty [old] (the source passes the
    one-character literal of the backtick): every leftmost,
    non-overlapping occurrence of [old] becomes [new]. *)
Fixpoint replace_from (old new : string) (skip : nat) (s : string) : string :=
  match s with
  | EmptyString => EmptyString
  | String c s' =>
      match skip with
      | S k => replace_from old new k s'
      | O =>
          if startswith s old
          then new ++ replace_from old new (Nat.pred (String.length old)) s'
          else String c (replace_from old new O s')
      end
  end.

Definition replace (s old new : string) : string := replace_from old new O s.

(** [sep.join(xs)] *)
Fixpoint join (sep : string) (xs : list string) : string :=
  match xs with
  | [] => EmptyString
  | [x] => x
  | x :: rest => x ++ sep ++ join sep rest
  end.

(** [xs.insert(i, x)] for [i >= 0] *)
Definition insert {A : Type} (i : nat) (x : A) (xs : list A) : list A :=
  firstn i xs ++ x :: skipn i xs.

(** The string literal ["\x1f"]. *)
Definition US : string := String (ascii_of_N 31) EmptyString.

(** The one-character literal of the backtick and its replacement, a
    backslash and a backtick. *)
Definition BACKTICK : string := String (ascii_of_N 96) EmptyString.
Definition ESCAPED_BACKTICK : string := String (ascii_of_N 92) BACKTICK.

(** ** The external process

    [run(cmd)] calls git through [subprocess.check_output] and splits its
    output into lines.  The call is a parameter of the functions below; it
    returns the lines or raises [CalledProcessError]. *)

Inductive failure : Type :=
| CalledProcessError (returncode : Z)
| OSError
| Uncaught (e : exn).

Inductive io (A : Type) : Type :=
| Done (a : A)
| Failed (f : failure).

Arguments Done {A} a.
Arguments Failed {A} f.

Definition runner : Type := list string -> io (list string).

(** ** [get_commits] *)

(** A yielded dict [{"hash": .., "subject": .., "date_utc": ..,
    "author_email": ..}]. *)
Record Commit : Type := mkCommit {
  hash : string;
  subject : string;
  date_utc : string;
  author_email : string
}.

(** [if user_id:] is false for [None] and for the empty string. *)
Definition truthy_str (s : option string) : bool :=
  match s with
  | Some (String _ _) => true
  | _ => false
  end.

(** [if limit:] is false for [None] and for [0]. *)
Definition truthy_int (n : option Z) : bool :=
  match n with
  | Some n => negb (n =? 0)
  | None => false
  end.

(** The [cmd] list of [get_commits]. *)
Definition git_log_cmd (limit : option Z) (user_id : option string) : list string :=
  let fmt := ("%H%x1f%s%x1f%cI%x1f%ae")%string in
  let cmd := ["git"; "log"; ("--pretty=" ++ fmt)%string; "--no-color"; "--first-parent"] in
  let cmd :=
    match user_id with
    | Some u => if truthy_str user_id then insert 2 ("--author=" ++ u)%string cmd else cmd
    | None => cmd
    end in
  match limit with
  | Some n => if truthy_int limit then insert 2 ("-n" ++ str n)%string cmd else cmd
  | None => cmd
  end.

(** The body of [for line in run(cmd)]: what one line yields. *)
Definition commit_of_line (line : string) : list Commit :=
  match split line US with
  | [p0; p1; p2; p3] => [mkCommit p0 p1 p2 p3]
  | _ => []
  end.

Definition get_commits (run : runner) (limit : option Z) (user_id : option string)
  : io (list Commit) :=
  match run (git_log_cmd limit user_id) with
  | Done lines => Done (flat_map commit_of_line lines)
  | Failed f => Failed f
  end.

(** ** [get_diff_lines] *)


(** ** [write_history] *)

(** [by_file.setdefault(key, []).append(ch)] on a dict kept as the list of
    its items in insertion order. *)
Fixpoint setdefault_append (key : string) (ch : ChangeRecord)
         (by_file : list (string * list ChangeRecord))
  : list (string * list ChangeRecord) :=
  match by_file with
  | [] => [(key, [ch])]
  | (k, items) :: rest =>
      if String.eqb k key then (k, items ++ [ch]) :: rest
      else (k, items) :: setdefault_append key ch rest
  end.

(** [by_file = {}; for ch in changes: by_file.setdefault(ch["file"], []).append(ch)] *)
Definition group_by_file (changes : list ChangeRecord)
  : list (string * list ChangeRecord) :=
  fold_left (fun by_file ch => setdefault_append (file ch) ch by_file) changes [].

(** [f"- L{ln}: {sign} {text}"] *)
Definition render_change (ch : ChangeRecord) : string :=
  let sign := match type ch with Add => "+" | Del => "-" end in
  let ln := line ch in
  let text_ := replace (text ch) BACKTICK ESCAPED_BACKTICK in
  ("- L" ++ str ln ++ ": " ++ sign ++ " " ++ text_)%string.

(** The two [out.append] of one file and those of its items. *)
Definition render_file (entry : string * list ChangeRecord) : list string :=
  let '(fname, items) := entry in
  [(NL ++ "**File:** " ++ BACKTICK ++ fname ++ BACKTICK ++ NL)%string;
   (BACKTICK ++ BACKTICK ++ BACKTICK ++ "diff")%string]
  ++ map render_change items.

(** The closing fence, appended once after the loop over the files. *)
Definition FENCE : string := (BACKTICK ++ BACKTICK ++ BACKTICK)%string.

(** What one commit with changes appends to [out].  [to_et] is the
    timestamp conversion and [dash] the em dash of the heading, a
    character outside the code points modelled here; both are parameters. *)
Definition commit_block (to_et : string -> string) (dash : string)
           (c : Commit) (changes : list ChangeRecord) : list string :=
  [("### " ++ subject c ++ "  " ++ NL ++ "*" ++ take 7 (hash c) ++ " " ++ dash
    ++ " " ++ to_et (date_utc c) ++ "*")%string]
  ++ flat_map render_file (group_by_file changes)
  ++ [FENCE].





(** ** Conditions and inputs used in the statements on the rest of [cli.py] *)

(** The line [git log --pretty=%H%x1f%s%x1f%cI%x1f%ae] prints for a
    commit. *)
Definition commit_line (c : Commit) : string :=
  (hash c ++ US ++ subject c ++ US ++ date_utc c ++ US ++ author_email c)%string.

(** No field of the commit contains the separator [\x1f]. *)
Definition separator_free (c : Commit) : Prop :=
  mem (ascii_of_N 31) (hash c) = false /\
  mem (ascii_of_N 31) (subject c) = false /\
  mem (ascii_of_N 31) (date_utc c) = false /\
  mem (ascii_of_N 31) (author_email c) = false.

(** How many times a character occurs in a string. *)
Fixpoint count_char (a : ascii) (s : string) : nat :=
  match s with
  | EmptyString => O
  | String c s' => (if Ascii.eqb c a then 1 else 0) + count_char a s'
  end.

(** The distinct elements of a list in the order of their first
    occurrence. *)
Fixpoint first_seen (seen xs : list string) : list string :=
  match xs with
  | [] => seen
  | x :: rest =>
      first_seen (if existsb (String.eqb x) seen then seen else seen ++ [x]) rest
  end.

(** The changes of one file, in their order. *)
Definition changes_of (f : string) (changes : list ChangeRecord) : list ChangeRecord :=
  filter (fun ch => String.eqb (file ch) f) changes.

(** The opening fence of a file, [```diff]. *)
Definition OPEN_FENCE : string := (FENCE ++ "diff")%string.



(** Every backtick of the string comes right after a backslash.
    [after_backslash] tells whether the previous character was one. *)
Fixpoint backticks_escaped (after_backslash : bool) (s : string) : bool :=
  match s with
  | EmptyString => true
  | String c s' =>
      (if Ascii.eqb c (ascii_of_N 96) then after_backslash else true)
      && backticks_escaped (Ascii.eqb c (ascii_of_N 92)) s'
  end.

(** Every character of the string satisfies [p]. *)
Fixpoint all_chars (p : ascii -> bool) (s : string) : bool :=
  match s with
  | EmptyString => true
  | String c s' => p c && all_chars p s'
  end.

(** The number a numeral denotes when read after digits worth [acc]. *)
Fixpoint digits_value (d : Decimal.uint) (acc : Z) : Z :=
  match d with
  | Decimal.Nil => acc
  | Decimal.D0 d' => digits_value d' (10 * acc)
  | Decimal.D1 d' => digits_value d' (10 * acc + 1)
  | Decimal.D2 d' => digits_value d' (10 * acc + 2)
  | Decimal.D3 d' => digits_value d' (10 * acc + 3)
  | Decimal.D4 d' => digits_value d' (10 * acc + 4)
  | Decimal.D5 d' => digits_value d' (10 * acc + 5)
  | Decimal.D6 d' => digits_value d' (10 * acc + 6)
  | Decimal.D7 d' => digits_value d' (10 * acc + 7)
  | Decimal.D8 d' => digits_value d' (10 * acc + 8)
  | Decimal.D9 d' => digits_value d' (10 * acc + 9)
  end.

(** A range of a hunk header as git writes it: the start, and the count
    unless it is 1. *)
Definition hunk_range (start count : Z) : string :=
  (str start ++ (if (count =? 1)%Z then "" else "," ++ str count))%string.

(** A hunk header as git writes it; [heading] is what follows the second
    [@@] (nothing, or a space and the section heading). *)
Definition hunk_header (old_start old_count new_start new_count : Z)
           (heading : string) : string :=
  ("@@ -" ++ hunk_range old_start old_count ++ " +"
   ++ hunk_range new_start new_count ++ " @@" ++ heading)%string.

(** The characters of a range: digits, the minus sign and the comma. *)
Definition is_range_char (c : ascii) : bool :=
  is_digit c || Ascii.eqb c "-" || Ascii.eqb c ",".

(** The text of an added line does not make the diff line read as a
    [+++ ] header or as a binary marker; likewise for a deleted line and
    [--- ]. *)
Definition plain_added (t : string) : bool :=
  negb (startswith t "++ ") && negb (contains t "Binary files").

Definition plain_deleted (t : string) : bool :=
  negb (startswith t "-- ") && negb (contains t "Binary files").

(** The records of consecutive lines of one kind, numbered from [n]. *)
Fixpoint numbered (f : string) (k : ChangeType) (n : Z) (texts : list string)
  : list ChangeRecord :=
  match texts with
  | [] => []
  | t :: rest => mkChange f n k (rstrip t NL) :: numbered f k (n + 1) rest
  end.

(** Some [+++ b/] line of the input names the file. *)
Definition named_in (diff_lines : list string) (f : string) : Prop :=
  exists raw, In raw diff_lines /\ kind raw = NewPath /\ new_path raw = Some f.

(** A line the loop passes over whatever the cursor holds: an old-path
    header, an empty line or the no-newline marker. *)
Definition passed_over (raw : string) : Prop :=
  kind raw = OldPath \/
  (kind raw = Content /\
   (rstrip raw NL = EmptyString \/
    startswith (rstrip raw NL) "\ No newline at end of file" = true)).

(** ** The model on concrete inputs *)

Example ex_int : map int ["5"; " -7 "; "1_0"; "--5"; "1__0"; ""; "007"; "+3"]
  = [Ok 5; Ok (-7); Ok 10; Raise ValueError; Raise ValueError; Raise ValueError; Ok 7; Ok 3].
Proof. reflexivity. Qed.

(** U+00A0 is white space to [int] and to [strip]; U+001C only to
    [strip]. *)
Example ex_space :
  (int (String (ascii_of_N 160) "5"), int (String (ascii_of_N 28) "5"),
   strip (String (ascii_of_N 28) (String (ascii_of_N 160) "a ")))
  = (Ok 5, Raise ValueError, "a").
Proof. reflexivity. Qed.

Example ex_hunk :
  map parse_hunk_header
      ["@@ -1,2 +3,4 @@ def f():"; "@@ -1 +3 @@"; "@@ -1,2  +3,4 @@"; "@@ 1 3 @@";
       "@@ --5 +1 @@"; "@@"]
  = [Ok (1, 3); Ok (1, 3); Raise ValueError; Raise ValueError; Ok (-5, 1);
     Raise ValueError].
Proof. reflexivity. Qed.

Example ex_split : (split "a@@b@@" "@@", split "@@@" "@@", split "@@@@" "@@", split "a  b" " ", split "" " ")
  = (["a"; "b"; ""], [""; "@"], [""; ""; ""], ["a"; ""; "b"], [""]).
Proof. reflexivity. Qed.

Example ex_basic :
  iter_changes ["diff --git a/foo.txt b/foo.txt"; "index 1..2 100644"; "--- a/foo.txt"; "+++ b/foo.txt";
                "@@ -10,0 +10,2 @@ def f():"; "+x"; "+y"; "@@ -20,2 +21,0 @@"; "-u"; "-v"; "\ No newline at end of file"]
  = Ok [mkChange "foo.txt" 10 Add "x"; mkChange "foo.txt" 11 Add "y";
        mkChange "foo.txt" 20 Del "u"; mkChange "foo.txt" 21 Del "v"].
Proof. vm_compute. reflexivity. Qed.

(** * Properties *)

(** ** Strings *)

Lemma mem_NL (c : ascii) : mem c NL = Ascii.eqb c newline.
Proof. unfold NL; simpl. apply orb_false_r. Qed.

Lemma rstrip_cons (c : ascii) (s : string) :
  Ascii.eqb c newline = false ->
  rstrip (String c s) NL = String c (rstrip s NL).
Proof.
  intros Hc. unfold rstrip. cbn [rstrip_with].
  destruct (rstrip_with _ s); [rewrite mem_NL, Hc|]; reflexivity.
Qed.

Lemma rstrip_empty_inv (c : ascii) (s : string) :
  rstrip (String c s) NL = EmptyString ->
  Ascii.eqb c newline = true /\ rstrip s NL = EmptyString.
Proof.
  unfold rstrip. cbn [rstrip_with].
  destruct (rstrip_with _ s); [|discriminate].
  rewrite mem_NL. destruct (Ascii.eqb c newline); [auto|discriminate].
Qed.

Lemma rstrip_cases (c : ascii) (s : string) :
  rstrip (String c s) NL = String c (rstrip s NL) \/
  rstrip (String c s) NL = EmptyString /\ Ascii.eqb c newline = true.
Proof.
  unfold rstrip. cbn [rstrip_with].
  destruct (rstrip_with _ s); [rewrite mem_NL|]; auto.
  destruct (Ascii.eqb c newline); auto.
Qed.

Lemma startswith_nil (s : string) : startswith s EmptyString = true.
Proof. now destruct s. Qed.

(** Stripping trailing newlines does not change whether the line starts
    with a prefix that has no newline in it. *)
Lemma startswith_rstrip (p s : string) :
  mem newline p = false ->
  startswith (rstrip s NL) p = startswith s p.
Proof.
  revert s. induction p as [|a p IH]; intros s Hp;
    [now rewrite !startswith_nil|].
  cbn [mem] in Hp. apply orb_false_elim in Hp as [Ha Hp].
  destruct s as [|b s]; [reflexivity|].
  destruct (rstrip_cases b s) as [E|[E Hb]]; rewrite E; cbn [startswith].
  - now rewrite IH.
  - destruct (Ascii.eqb_spec b newline) as [->|]; [|discriminate].
    now rewrite Ha.
Qed.

(** Nor whether it contains a non-empty substring with no newline in it. *)
Lemma contains_rstrip (a : ascii) (p s : string) :
  mem newline (String a p) = false ->
  contains (rstrip s NL) (String a p) = contains s (String a p).
Proof.
  intros Hp. induction s as [|b s IH]; [reflexivity|].
  change (contains (String b s) (String a p))
    with (startswith (String b s) (String a p) || contains s (String a p)).
  rewrite <- (startswith_rstrip (String a p) (String b s) Hp).
  destruct (rstrip_cases b s) as [E|[E Hb]]; rewrite E.
  - change (contains (String b (rstrip s NL)) (String a p))
      with (startswith (String b (rstrip s NL)) (String a p)
            || contains (rstrip s NL) (String a p)).
    now rewrite IH.
  - apply rstrip_empty_inv in E as [_ E]. rewrite E in IH.
    now rewrite <- IH.
Qed.

Lemma split_from_nonempty (sep : string) (skip : nat) (s : string) :
  split_from sep skip s <> [].
Proof.
  revert skip. induction s as [|c s IH]; intros skip; cbn [split_from];
    [discriminate|].
  destruct skip; [|apply IH].
  destruct (startswith (String c s) sep); [discriminate|].
  destruct (split_from sep 0 s); discriminate.
Qed.

(** ** One line *)

Lemma step_FileSep (c : Cursor) (raw : string) :
  kind raw = FileSep -> step c raw = Ok (set_file c None, []).
Proof.
  unfold kind, step.
  repeat (destruct (startswith _ _) || destruct (contains _ _)); simpl;
    (reflexivity || discriminate).
Qed.

Lemma step_NewPath (c : Cursor) (raw : string) :
  kind raw = NewPath -> step c raw = Ok (set_file c (new_path raw), []).
Proof.
  unfold kind, step, new_path.
  destruct (startswith (rstrip raw NL) "diff --git "); [discriminate|].
  destruct (startswith (rstrip raw NL) "+++ "); [reflexivity|].
  repeat (destruct (startswith _ _) || destruct (contains _ _)); simpl;
    discriminate.
Qed.

Lemma step_OldPath (c : Cursor) (raw : string) :
  kind raw = OldPath -> step c raw = Ok (c, []).
Proof.
  unfold kind, step.
  repeat (destruct (startswith _ _) || destruct (contains _ _)); simpl;
    (reflexivity || discriminate).
Qed.

Lemma step_Binary (c : Cursor) (raw : string) :
  kind raw = Binary -> step c raw = Ok (set_file c None, []).
Proof.
  unfold kind, step.
  repeat (destruct (startswith _ _) || destruct (contains _ _)); simpl;
    (reflexivity || discriminate).
Qed.

Lemma step_Hunk (c : Cursor) (raw : string) :
  kind raw = Hunk ->
  step c raw = Ok (set_lines c (fst (hunk_counters raw)) (snd (hunk_counters raw)), []).
Proof.
  unfold kind, step, hunk_counters.
  destruct (startswith (rstrip raw NL) "diff --git "); [discriminate|].
  destruct (startswith (rstrip raw NL) "+++ "); [discriminate|].
  destruct (startswith (rstrip raw NL) "--- "); [discriminate|].
  destruct (contains _ _ || startswith _ _); [discriminate|].
  destruct (startswith (rstrip raw NL) "@@ "); [|discriminate].
  intros _. destruct (parse_hunk_header _) as [[o n]|e]; reflexivity.
Qed.

(** A content line yields at most one record, and none unless the file and
    both counters are set. *)
Lemma step_Content (c : Cursor) (raw : string) :
  kind raw = Content ->
  exists c' out, step c raw = Ok (c', out) /\ cur_file c' = cur_file c /\
    (length out <= 1)%nat /\
    (cur_file c = None \/ old_line c = None \/ new_line c = None ->
     c' = c /\ out = []).
Proof.
  unfold kind, step.
  destruct (startswith (rstrip raw NL) "diff --git "); [discriminate|].
  destruct (startswith (rstrip raw NL) "+++ "); [discriminate|].
  destruct (startswith (rstrip raw NL) "--- "); [discriminate|].
  destruct (contains _ _ || startswith _ _); [discriminate|].
  destruct (startswith (rstrip raw NL) "@@ "); [discriminate|].
  intros _. destruct c as [[f|] [o|] [n|]]; cbn [cur_file old_line new_line];
    try (eexists; eexists; repeat split; try reflexivity; auto; fail).
  repeat (destruct (String.eqb _ _) || destruct (startswith _ _));
    cbn [orb];
    eexists; eexists; (split; [reflexivity|]); cbn [cur_file set_lines length];
    (split; [reflexivity|split; [auto|intros [H|[H|H]]; discriminate]]).
Qed.

Lemma startswith_inv (a : ascii) (p s : string) :
  startswith s (String a p) = true ->
  exists s', s = String a s' /\ startswith s' p = true.
Proof.
  destruct s as [|b s]; cbn [startswith]; [discriminate|].
  intros H. apply andb_true_iff in H as [Hb Hs].
  apply Ascii.eqb_eq in Hb. subst b. eauto.
Qed.

(** Peel a literal prefix off a line known to start with it. *)
Ltac peel H :=
  repeat match type of H with
         | startswith ?s (String _ _) = true =>
             let s' := fresh "s" in
             let E := fresh "E" in
             apply startswith_inv in H as [s' [E H]]; subst s
         end.

(** The tests of [kind], stated on the line as it was read. *)
Lemma kind_raw (raw : string) :
  kind raw =
  if startswith raw "diff --git " then FileSep
  else if startswith raw "+++ " then NewPath
  else if startswith raw "--- " then OldPath
  else if contains raw "Binary files" || startswith raw "GIT binary patch" then Binary
  else if startswith raw "@@ " then Hunk
  else Content.
Proof.
  unfold kind.
  rewrite !startswith_rstrip by reflexivity.
  rewrite contains_rstrip by reflexivity.
  reflexivity.
Qed.

Lemma kind_FileSep (raw : string) :
  startswith raw "diff --git " = true -> kind raw = FileSep.
Proof. intros H. rewrite kind_raw, H. reflexivity. Qed.

Lemma kind_NewPath (raw : string) :
  startswith raw "+++ " = true -> kind raw = NewPath.
Proof. intros H. rewrite kind_raw, H. peel H. reflexivity. Qed.

Lemma kind_OldPath (raw : string) :
  startswith raw "--- " = true -> kind raw = OldPath.
Proof. intros H. rewrite kind_raw, H. peel H. reflexivity. Qed.

Lemma kind_Hunk (raw : string) :
  startswith raw "@@ " = true -> contains raw "Binary files" = false ->
  kind raw = Hunk.
Proof.
  intros H B. rewrite kind_raw, H, B. peel H. reflexivity.
Qed.

Lemma kind_Binary (raw : string) :
  contains raw "Binary files" = true ->
  startswith raw "diff --git " = false ->
  startswith raw "+++ " = false ->
  startswith raw "--- " = false ->
  kind raw = Binary.
Proof. intros B H1 H2 H3. rewrite kind_raw, H1, H2, H3, B. reflexivity. Qed.

(** Every iteration of the loop body completes, yielding at most one
    record: the only operations that can raise sit inside the [try]. *)
Lemma step_total (c : Cursor) (raw : string) :
  exists c' out, step c raw = Ok (c', out) /\ (length out <= 1)%nat.
Proof.
  destruct (kind raw) eqn:K.
  - rewrite (step_FileSep _ _ K). eexists; eexists; split; [reflexivity|simpl; lia].
  - rewrite (step_NewPath _ _ K). eexists; eexists; split; [reflexivity|simpl; lia].
  - rewrite (step_OldPath _ _ K). eexists; eexists; split; [reflexivity|simpl; lia].
  - rewrite (step_Binary _ _ K). eexists; eexists; split; [reflexivity|simpl; lia].
  - rewrite (step_Hunk _ _ K). eexists; eexists; split; [reflexivity|simpl; lia].
  - destruct (step_Content c _ K) as [c' [out [E [_ [L _]]]]]. eauto.
Qed.

(** ** The loop *)

Lemma run_cons (c c1 : Cursor) (raw : string) (rest : list string)
      (out1 : list ChangeRecord) :
  step c raw = Ok (c1, out1) ->
  run c (raw :: rest) = ('(c2, out2) <- run c1 rest ;; ret (c2, out1 ++ out2)).
Proof. intros E. cbn [run]. rewrite E. reflexivity. Qed.

Lemma run_cons_silent (c c1 : Cursor) (raw : string) (rest : list string) :
  step c raw = Ok (c1, []) -> run c (raw :: rest) = run c1 rest.
Proof.
  intros E. rewrite (run_cons _ _ _ _ _ E).
  destruct (run c1 rest) as [[c2 out2]|e]; reflexivity.
Qed.

Lemma run_total (c : Cursor) (diff_lines : list string) :
  exists c' out, run c diff_lines = Ok (c', out) /\
                 (length out <= length diff_lines)%nat.
Proof.
  revert c. induction diff_lines as [|raw rest IH]; intros c.
  - exists c, []. split; [reflexivity|simpl; lia].
  - destruct (step_total c raw) as [c1 [out1 [E1 L1]]].
    destruct (IH c1) as [c2 [out2 [E2 L2]]].
    exists c2, (out1 ++ out2). rewrite (run_cons _ _ _ _ _ E1), E2.
    split; [reflexivity|]. rewrite length_app. simpl. lia.
Qed.

Lemma run_app (c : Cursor) (xs ys : list string) :
  run c (xs ++ ys) =
  ('(c1, out1) <- run c xs ;; '(c2, out2) <- run c1 ys ;; ret (c2, out1 ++ out2)).
Proof.
  revert c. induction xs as [|raw xs IH]; intros c.
  - cbn [app run bind ret]. destruct (run c ys) as [[c2 out2]|e]; reflexivity.
  - destruct (step_total c raw) as [c1 [out1 [E1 _]]].
    rewrite <- app_comm_cons, !(run_cons _ _ _ _ _ E1), IH.
    destruct (run c1 xs) as [[c2 out2]|e]; [|reflexivity].
    cbn [bind ret]. destruct (run c2 ys) as [[c3 out3]|e]; [|reflexivity].
    cbn [bind ret]. now rewrite app_assoc.
Qed.

(** *** C1 *)

(** C1. For every sequence of lines, [iter_changes] runs to completion
    without raising: it returns the list of yielded records, and that list
    is never longer than the input (malformed content can only cost
    records). *)
Theorem iter_changes_never_raises (diff_lines : list string) :
  exists out, iter_changes diff_lines = Ok out /\
              (length out <= length diff_lines)%nat.
Proof.
  unfold iter_changes.
  destruct (run_total init diff_lines) as [c [out [E L]]].
  exists out. rewrite E. split; [reflexivity|exact L].
Qed.

(** *** C2 *)

(** A [diff --git ] line clears the file and nothing else. *)
Lemma step_diff_git (c : Cursor) (raw : string) :
  startswith raw "diff --git " = true ->
  step c raw = Ok (mkCursor None (old_line c) (new_line c), []).
Proof. intros H. apply step_FileSep, kind_FileSep, H. Qed.

(** C2, as the code has it. A line that begins with [diff --git ] sets
    [cur_file] to [None], yields nothing and leaves both counters as they
    were; so after two such lines in a row nothing has been yielded, the
    file is unset and the counters still hold what they held before. *)
Theorem diff_git_unsets_file_keeps_counters
        (c : Cursor) (raw1 raw2 : string) :
  startswith raw1 "diff --git " = true ->
  startswith raw2 "diff --git " = true ->
  step c raw1 = Ok (mkCursor None (old_line c) (new_line c), []) /\
  run c [raw1; raw2] = Ok (mkCursor None (old_line c) (new_line c), []).
Proof.
  intros H1 H2. split; [now apply step_diff_git|].
  rewrite (run_cons_silent _ _ _ _ (step_diff_git c raw1 H1)).
  rewrite (run_cons_silent _ _ _ _ (step_diff_git _ raw2 H2)).
  reflexivity.
Qed.

Lemma diff_git_unsets_file_keeps_counters_witness :
  step (mkCursor (Some "a.txt") (Some 3) (Some 4)) "diff --git a/b.txt b/b.txt"
    = Ok (mkCursor None (Some 3) (Some 4), []) /\
  run (mkCursor (Some "a.txt") (Some 3) (Some 4))
      ["diff --git a/b.txt b/b.txt"; "diff --git a/c.txt b/c.txt"]
    = Ok (mkCursor None (Some 3) (Some 4), []).
Proof.
  apply (diff_git_unsets_file_keeps_counters
           (mkCursor (Some "a.txt") (Some 3) (Some 4))
           "diff --git a/b.txt b/b.txt" "diff --git a/c.txt b/c.txt");
    reflexivity.
Defined.

(** C2 fails as stated: in a run from the initial cursor, the counters a
    hunk header set are still there after two [diff --git ] lines. *)
Lemma diff_git_leaves_stale_counters :
  exists c,
    run init ["diff --git a/a.txt b/a.txt"; "--- a/a.txt"; "+++ b/a.txt";
              "@@ -3 +4 @@"; "diff --git a/b.txt b/b.txt";
              "diff --git a/c.txt b/c.txt"]
      = Ok (c, []) /\
    old_line c = Some 3 /\ new_line c = Some 4.
Proof. eexists. split; [vm_compute; reflexivity|]. split; reflexivity. Qed.

(** *** C3 *)

(** A line that is neither a header nor a binary marker either changes
    nothing, or, with the file and both counters set, is one of [+], [-]
    and context. *)
Lemma step_Content_inv (c c' : Cursor) (raw : string) (out : list ChangeRecord) :
  kind raw = Content ->
  step c raw = Ok (c', out) ->
  (c' = c /\ out = []) \/
  exists f o n,
    c = mkCursor (Some f) (Some o) (Some n) /\
    let ln := rstrip raw NL in
    ((c' = mkCursor (Some f) (Some o) (Some (n + 1)) /\
      out = [mkChange f n Add (drop 1 ln)]) \/
     (c' = mkCursor (Some f) (Some (o + 1)) (Some n) /\
      out = [mkChange f o Del (drop 1 ln)]) \/
     (c' = mkCursor (Some f) (Some (o + 1)) (Some (n + 1)) /\ out = [])).
Proof.
  unfold kind, step.
  destruct (startswith (rstrip raw NL) "diff --git "); [discriminate|].
  destruct (startswith (rstrip raw NL) "+++ "); [discriminate|].
  destruct (startswith (rstrip raw NL) "--- "); [discriminate|].
  destruct (contains _ _ || startswith _ _); [discriminate|].
  destruct (startswith (rstrip raw NL) "@@ "); [discriminate|].
  intros _. destruct c as [[f|] [o|] [n|]]; cbn [cur_file old_line new_line];
    try (intros E; injection E as <- <-; left; split; reflexivity).
  destruct (String.eqb _ _ || startswith _ _);
    [intros E; injection E as <- <-; left; split; reflexivity|].
  destruct (startswith (rstrip raw NL) "+");
    [intros E; injection E as <- <-; right; exists f, o, n;
     split; [reflexivity|left; split; reflexivity]|].
  destruct (startswith (rstrip raw NL) "-");
    intros E; injection E as <- <-; right; exists f, o, n;
    (split; [reflexivity|right]); [left|right]; split; reflexivity.
Qed.






(** *** C4 *)

(** Additions take their number from [new_line], deletions from
    [old_line]: the two numbering spaces are never mixed. *)
Lemma step_numbering (c c' : Cursor) (raw : string) (out : list ChangeRecord)
      (r : ChangeRecord) :
  step c raw = Ok (c', out) -> In r out ->
  match type r with
  | Add => new_line c = Some (line r) /\ new_line c' = Some (line r + 1) /\
           old_line c' = old_line c
  | Del => old_line c = Some (line r) /\ old_line c' = Some (line r + 1) /\
           new_line c' = new_line c
  end.
Proof.
  intros E I. destruct (kind raw) eqn:K.
  - rewrite (step_FileSep _ _ K) in E. injection E as <- <-. destruct I.
  - rewrite (step_NewPath _ _ K) in E. injection E as <- <-. destruct I.
  - rewrite (step_OldPath _ _ K) in E. injection E as <- <-. destruct I.
  - rewrite (step_Binary _ _ K) in E. injection E as <- <-. destruct I.
  - rewrite (step_Hunk _ _ K) in E. injection E as <- <-. destruct I.
  - destruct (step_Content_inv _ _ _ _ K E)
      as [[-> ->]|[f [o [n [-> [[-> ->]|[[-> ->]|[-> ->]]]]]]]];
      try destruct I as [<-|[]]; try destruct I; cbn; auto.
Qed.







(** The headers git writes for a new file and for a deletion at the top of
    a file have 0 on the side without lines; the records are numbered from
    1. *)
Example ex_zero_start_on_empty_side :
  iter_changes ["diff --git a/n.txt b/n.txt"; "--- /dev/null"; "+++ b/n.txt";
                "@@ -0,0 +1,2 @@"; "+a"; "+b";
                "diff --git a/t.txt b/t.txt"; "--- a/t.txt"; "+++ b/t.txt";
                "@@ -1,2 +0,0 @@"; "-c"; "-d"]
  = Ok [mkChange "n.txt" 1 Add "a"; mkChange "n.txt" 2 Add "b";
        mkChange "t.txt" 1 Del "c"; mkChange "t.txt" 2 Del "d"].
Proof. vm_compute. reflexivity. Qed.


(** *** C5 and C6 *)

Lemma startswith_app (p s : string) : startswith (p ++ s) p = true.
Proof.
  induction p as [|a p IH]; cbn [append]; [apply startswith_nil|].
  cbn [startswith]. now rewrite Ascii.eqb_refl.
Qed.

(** A [+] line whose text does not make it read as a [+++ ] header or as a
    binary marker yields an addition numbered by [new_line]. *)
Lemma step_add (f : string) (o n : Z) (t : string) :
  startswith t "++ " = false ->
  contains t "Binary files" = false ->
  step (mkCursor (Some f) (Some o) (Some n)) ("+" ++ t)
  = Ok (mkCursor (Some f) (Some o) (Some (n + 1)),
        [mkChange f n Add (rstrip t NL)]).
Proof.
  intros H B. unfold step. cbn [append]. rewrite rstrip_cons by reflexivity.
  cbn. rewrite startswith_rstrip, contains_rstrip by reflexivity.
  rewrite H, B, startswith_nil. reflexivity.
Qed.

(** A [-] line whose text does not make it read as a [--- ] header or as a
    binary marker yields a deletion numbered by [old_line]. *)
Lemma step_del (f : string) (o n : Z) (t : string) :
  startswith t "-- " = false ->
  contains t "Binary files" = false ->
  step (mkCursor (Some f) (Some o) (Some n)) ("-" ++ t)
  = Ok (mkCursor (Some f) (Some (o + 1)) (Some n),
        [mkChange f o Del (rstrip t NL)]).
Proof.
  intros H B. unfold step. cbn [append]. rewrite rstrip_cons by reflexivity.
  cbn. rewrite startswith_rstrip, contains_rstrip by reflexivity.
  rewrite H, B, startswith_nil. reflexivity.
Qed.

Lemma step_old_path (c : Cursor) (a : string) :
  step c ("--- " ++ a) = Ok (c, []).
Proof. apply step_OldPath, kind_OldPath, startswith_app. Qed.

Lemma step_new_path_b (c : Cursor) (f : string) :
  step c ("+++ b/" ++ f) = Ok (set_file c (Some (rstrip f NL)), []).
Proof.
  unfold step. cbn [append]. rewrite !rstrip_cons by reflexivity.
  cbn. rewrite startswith_nil. reflexivity.
Qed.

(** C5, as the code has it. For the input [diff --git ...],
    [--- a/foo.txt], [+++ b/foo.txt], [@@ -10,0 +10,2 @@] and two [+]
    lines, neither of which reads as a [+++ ] header (text starting with
    [++ ]) or contains [Binary files], the output is exactly two additions
    for [foo.txt], numbered 10 and 11 in that order, each with the text of
    its line without the leading [+] (and without trailing newlines). *)
Theorem two_additions_numbered_10_11 (h t1 t2 : string) :
  startswith t1 "++ " = false -> contains t1 "Binary files" = false ->
  startswith t2 "++ " = false -> contains t2 "Binary files" = false ->
  iter_changes ["diff --git " ++ h; "--- a/foo.txt"; "+++ b/foo.txt";
                "@@ -10,0 +10,2 @@"; "+" ++ t1; "+" ++ t2]%string
  = Ok [mkChange "foo.txt" 10 Add (rstrip t1 NL);
        mkChange "foo.txt" 11 Add (rstrip t2 NL)].
Proof.
  intros H1 B1 H2 B2. unfold iter_changes.
  rewrite (run_cons_silent _ _ _ _ (step_diff_git init _ (startswith_app _ h))).
  rewrite (run_cons_silent _ _ _ _ (step_old_path _ "a/foo.txt")).
  rewrite (run_cons_silent _ _ _ _ (step_new_path_b _ "foo.txt")).
  rewrite (run_cons_silent _ _ "@@ -10,0 +10,2 @@" _ (step_Hunk _ "@@ -10,0 +10,2 @@" eq_refl)).
  change (hunk_counters "@@ -10,0 +10,2 @@") with (Some 10, Some 10).
  change (rstrip "foo.txt" NL) with "foo.txt".
  cbv [set_lines set_file cur_file old_line new_line fst snd].
  rewrite (run_cons _ _ _ _ _ (step_add _ _ _ t1 H1 B1)).
  rewrite (run_cons _ _ _ _ _ (step_add _ _ _ t2 H2 B2)).
  reflexivity.
Qed.

Lemma two_additions_numbered_10_11_witness :
  iter_changes ["diff --git a/foo.txt b/foo.txt"; "--- a/foo.txt";
                "+++ b/foo.txt"; "@@ -10,0 +10,2 @@"; "+alpha"; "+beta"]
  = Ok [mkChange "foo.txt" 10 Add "alpha"; mkChange "foo.txt" 11 Add "beta"].
Proof.
  apply (two_additions_numbered_10_11 "a/foo.txt b/foo.txt" "alpha" "beta");
    reflexivity.
Defined.

(** C5 fails as stated: an added line that contains [Binary files] is taken
    for a binary marker, unsets the file, and the line after it is dropped
    too. *)
Lemma added_binary_text_yields_nothing :
  iter_changes ["diff --git a/foo.txt b/foo.txt"; "--- a/foo.txt";
                "+++ b/foo.txt"; "@@ -10,0 +10,2 @@";
                "+Binary files are skipped."; "+See the manual."]
  = Ok [].
Proof. vm_compute. reflexivity. Qed.

(** C6, as the code has it. For a single-file input with the hunk header
    [@@ -5,2 +5,0 @@] and two [-] lines, neither of which reads as a
    [--- ] header (text starting with [-- ]) or contains [Binary files],
    the output is exactly two deletions numbered 5 and 6 in that order,
    each with the text of its line without the leading [-] (and without
    trailing newlines). *)
Theorem two_deletions_numbered_5_6 (h a f t1 t2 : string) :
  startswith t1 "-- " = false -> contains t1 "Binary files" = false ->
  startswith t2 "-- " = false -> contains t2 "Binary files" = false ->
  iter_changes ["diff --git " ++ h; "--- " ++ a; "+++ b/" ++ f;
                "@@ -5,2 +5,0 @@"; "-" ++ t1; "-" ++ t2]%string
  = Ok [mkChange (rstrip f NL) 5 Del (rstrip t1 NL);
        mkChange (rstrip f NL) 6 Del (rstrip t2 NL)].
Proof.
  intros H1 B1 H2 B2. unfold iter_changes.
  rewrite (run_cons_silent _ _ _ _ (step_diff_git init _ (startswith_app _ h))).
  rewrite (run_cons_silent _ _ _ _ (step_old_path _ a)).
  rewrite (run_cons_silent _ _ _ _ (step_new_path_b _ f)).
  rewrite (run_cons_silent _ _ "@@ -5,2 +5,0 @@" _ (step_Hunk _ "@@ -5,2 +5,0 @@" eq_refl)).
  change (hunk_counters "@@ -5,2 +5,0 @@") with (Some 5, Some 5).
  cbv [set_lines set_file cur_file old_line new_line fst snd].
  rewrite (run_cons _ _ _ _ _ (step_del _ _ _ t1 H1 B1)).
  rewrite (run_cons _ _ _ _ _ (step_del _ _ _ t2 H2 B2)).
  reflexivity.
Qed.

Lemma two_deletions_numbered_5_6_witness :
  iter_changes ["diff --git a/foo.txt b/foo.txt"; "--- a/foo.txt";
                "+++ b/foo.txt"; "@@ -5,2 +5,0 @@"; "-alpha"; "-beta"]
  = Ok [mkChange "foo.txt" 5 Del "alpha"; mkChange "foo.txt" 6 Del "beta"].
Proof.
  apply (two_deletions_numbered_5_6 "a/foo.txt b/foo.txt" "a/foo.txt"
           "foo.txt" "alpha" "beta");
    reflexivity.
Defined.

(** C6 fails as stated: the deleted line [-- schema] appears in the diff as
    [--- schema] and is taken for the old-path header, so only one deletion
    is yielded. *)
Lemma deleted_dashes_taken_for_header :
  iter_changes ["diff --git a/q.sql b/q.sql"; "--- a/q.sql"; "+++ b/q.sql";
                "@@ -5,2 +5,0 @@"; "--- schema"; "-select 1;"]
  = Ok [mkChange "q.sql" 5 Del "select 1;"].
Proof. vm_compute. reflexivity. Qed.

(** *** C7 *)

(** While both counters are unset and no hunk header parses, nothing is
    yielded and the counters stay unset. *)
Lemma run_without_counters (diff_lines : list string) (c : Cursor) :
  old_line c = None -> new_line c = None ->
  no_valid_hunk diff_lines = true ->
  exists c', run c diff_lines = Ok (c', []) /\
             old_line c' = None /\ new_line c' = None.
Proof.
  revert c. induction diff_lines as [|raw rest IH]; intros c HO HN NV.
  - exists c. repeat split; assumption.
  - unfold no_valid_hunk in NV. cbn [forallb] in NV.
    apply andb_true_iff in NV as [NV1 NV2].
    assert (S : exists c1, step c raw = Ok (c1, []) /\
                           old_line c1 = None /\ new_line c1 = None).
    { destruct (kind raw) eqn:K.
      - rewrite (step_FileSep _ _ K). eexists; repeat split; assumption.
      - rewrite (step_NewPath _ _ K). eexists; repeat split; assumption.
      - rewrite (step_OldPath _ _ K). eexists; repeat split; assumption.
      - rewrite (step_Binary _ _ K). eexists; repeat split; assumption.
      - rewrite (step_Hunk _ _ K). unfold hunk_counters.
        destruct (parse_hunk_header _) as [[o n]|e]; [discriminate|].
        eexists; repeat split.
      - destruct (step_Content c raw K) as [c1 [out [E [_ [_ D]]]]].
        destruct D as [-> ->]; [auto|].
        exists c. repeat split; assumption. }
    destruct S as [c1 [E1 [HO1 HN1]]].
    rewrite (run_cons_silent _ _ _ _ E1). now apply IH.
Qed.

(** C7, as the code has it. When a line that starts with [@@ ] and does
    not contain [Binary files] cannot be parsed into the two start numbers,
    both counters become [None] and nothing is raised; every line after it
    yields nothing for as long as no such header parses; and the next one
    that parses sets both counters to its start numbers. *)
Theorem malformed_hunk_header_drops_until_next_valid
        (c : Cursor) (bad good : string) (mid : list string)
        (e : exn) (o n : Z) :
  startswith bad "@@ " = true -> contains bad "Binary files" = false ->
  parse_hunk_header (rstrip bad NL) = Raise e ->
  no_valid_hunk mid = true ->
  startswith good "@@ " = true -> contains good "Binary files" = false ->
  parse_hunk_header (rstrip good NL) = Ok (o, n) ->
  exists c2,
    step c bad = Ok (mkCursor (cur_file c) None None, []) /\
    run (mkCursor (cur_file c) None None) mid = Ok (c2, []) /\
    old_line c2 = None /\ new_line c2 = None /\
    step c2 good = Ok (mkCursor (cur_file c2) (Some o) (Some n), []).
Proof.
  intros HB BB PB NV HG BG PG.
  destruct (run_without_counters mid (mkCursor (cur_file c) None None)
              eq_refl eq_refl NV) as [c2 [R [HO HN]]].
  exists c2. split.
  { rewrite (step_Hunk _ _ (kind_Hunk _ HB BB)). unfold hunk_counters.
    rewrite PB. reflexivity. }
  repeat (split; [assumption|]).
  rewrite (step_Hunk _ _ (kind_Hunk _ HG BG)). unfold hunk_counters.
  rewrite PG. reflexivity.
Qed.

Lemma malformed_hunk_header_drops_until_next_valid_witness :
  exists c2,
    step (mkCursor (Some "f.txt") (Some 3) (Some 4)) "@@ -x +1 @@"
      = Ok (mkCursor (Some "f.txt") None None, []) /\
    run (mkCursor (Some "f.txt") None None) ["+a"; "-b"; "@@ broken"; "c"]
      = Ok (c2, []) /\
    old_line c2 = None /\ new_line c2 = None /\
    step c2 "@@ -7,2 +9 @@"
      = Ok (mkCursor (cur_file c2) (Some 7) (Some 9), []).
Proof.
  apply (malformed_hunk_header_drops_until_next_valid
           (mkCursor (Some "f.txt") (Some 3) (Some 4))
           "@@ -x +1 @@" "@@ -7,2 +9 @@" ["+a"; "-b"; "@@ broken"; "c"]
           ValueError 7 9);
    vm_compute; reflexivity.
Defined.

(** C7 fails as stated: a line that starts with [@@ ] and cannot be parsed,
    but contains [Binary files], is taken for a binary marker; the
    counters keep their values, and after the next [+++ b/] line a content
    line is yielded without any new hunk header. *)
Lemma unparsable_hunk_with_binary_text_keeps_counters :
  parse_hunk_header "@@ Binary files @@" = Raise ValueError /\
  step (mkCursor (Some "f.txt") (Some 3) (Some 4)) "@@ Binary files @@"
    = Ok (mkCursor None (Some 3) (Some 4), []) /\
  iter_changes ["diff --git a/f.txt b/f.txt"; "--- a/f.txt"; "+++ b/f.txt";
                "@@ -3 +4 @@"; "@@ Binary files @@"; "+++ b/g.txt"; "+x"]
    = Ok [mkChange "g.txt" 4 Add "x"].
Proof. repeat split; vm_compute; reflexivity. Qed.

(** *** C8 *)

(** From two cursors that agree on the file, the lines of a file section
    yield the same records: the counters may differ only until the first
    hunk header, and no line is numbered before it. *)
Lemma hunk_first_same_records (rest : list string) :
  forall (named : bool) (c1 c2 : Cursor),
    cur_file c1 = cur_file c2 ->
    (named = false -> cur_file c1 = None) ->
    hunk_first named rest = true ->
    exists c1' c2' out,
      run c1 rest = Ok (c1', out) /\ run c2 rest = Ok (c2', out).
Proof.
  induction rest as [|raw rest IH]; intros named c1 c2 F N G.
  - exists c1, c2, []. split; reflexivity.
  - cbn [hunk_first] in G. destruct (kind raw) eqn:K.
    + rewrite !(run_cons_silent _ _ _ _ (step_FileSep _ _ K)).
      apply (IH false); [reflexivity|reflexivity|exact G].
    + rewrite !(run_cons_silent _ _ _ _ (step_NewPath _ _ K)).
      apply (IH (match new_path raw with Some _ => true | None => false end));
        [reflexivity| |exact G].
      cbn [set_file cur_file]. destruct (new_path raw); [discriminate|reflexivity].
    + rewrite !(run_cons_silent _ _ _ _ (step_OldPath _ _ K)).
      apply (IH named); assumption.
    + rewrite !(run_cons_silent _ _ _ _ (step_Binary _ _ K)).
      apply (IH false); [reflexivity|reflexivity|exact G].
    + rewrite !(run_cons_silent _ _ _ _ (step_Hunk _ _ K)).
      unfold set_lines. rewrite F.
      destruct (run_total
                  (mkCursor (cur_file c2) (fst (hunk_counters raw))
                            (snd (hunk_counters raw))) rest)
        as [c' [out [R _]]].
      exists c', c', out. split; exact R.
    + apply andb_true_iff in G as [Hn G].
      apply negb_true_iff in Hn. specialize (N Hn).
      destruct (step_Content c1 raw K) as [d1 [o1 [E1 [_ [_ D1]]]]].
      destruct (step_Content c2 raw K) as [d2 [o2 [E2 [_ [_ D2]]]]].
      destruct D1 as [-> ->]; [auto|].
      destruct D2 as [-> ->]; [left; congruence|].
      rewrite (run_cons_silent _ _ _ _ E1), (run_cons_silent _ _ _ _ E2).
      apply (IH named); auto.
Qed.

(** A well-formed diff yields the same records from any cursor. *)
Lemma well_formed_same_records (d : list string) (c1 c2 : Cursor) :
  well_formed d = true ->
  exists c1' c2' out,
    run c1 d = Ok (c1', out) /\ run c2 d = Ok (c2', out).
Proof.
  destruct d as [|raw rest]; [discriminate|]. cbn [well_formed].
  destruct (kind raw) eqn:K; try discriminate. intros G.
  rewrite !(run_cons_silent _ _ _ _ (step_FileSep _ _ K)).
  apply (hunk_first_same_records rest false); auto.
Qed.

Lemma run_concat_well_formed (diffs : list (list string)) (c : Cursor) :
  forallb well_formed diffs = true ->
  exists c' out,
    run c (concat diffs) = Ok (c', out) /\ extract_each diffs = Ok out.
Proof.
  revert c. induction diffs as [|d rest IH]; intros c W.
  - exists c, []. split; reflexivity.
  - cbn [forallb] in W. apply andb_true_iff in W as [Wd Wr].
    destruct (well_formed_same_records d c init Wd)
      as [c1 [c2 [out [R1 R2]]]].
    destruct (IH c1 Wr) as [c' [outs [R E]]].
    exists c', (out ++ outs). cbn [concat extract_each].
    rewrite run_app, R1. cbn [bind]. rewrite R. cbn [bind ret].
    unfold iter_changes. rewrite R2. cbn [bind ret]. rewrite E.
    split; reflexivity.
Qed.

(** C8. For every list of well-formed diffs, extracting their
    concatenation in one call yields exactly the records, in the same
    order, that extracting each diff on its own and concatenating the
    results yields. *)
Theorem concatenation_of_well_formed_diffs (diffs : list (list string)) :
  forallb well_formed diffs = true ->
  exists out,
    iter_changes (concat diffs) = Ok out /\ extract_each diffs = Ok out.
Proof.
  intros W. destruct (run_concat_well_formed diffs init W) as [c [out [R E]]].
  exists out. unfold iter_changes. rewrite R. split; [reflexivity|exact E].
Qed.

Lemma concatenation_of_well_formed_diffs_witness :
  exists out,
    iter_changes
      (concat [["diff --git a/a.txt b/a.txt"; "index 1..2 100644";
                "--- a/a.txt"; "+++ b/a.txt"; "@@ -3 +3,2 @@"; "-x"; "+y"; "+z"];
               ["diff --git a/b.txt b/b.txt"; "index 3..4 100644";
                "--- a/b.txt"; "+++ b/b.txt"; "@@ -8,0 +9 @@"; "+w"]])
      = Ok out /\
    extract_each
      [["diff --git a/a.txt b/a.txt"; "index 1..2 100644";
        "--- a/a.txt"; "+++ b/a.txt"; "@@ -3 +3,2 @@"; "-x"; "+y"; "+z"];
       ["diff --git a/b.txt b/b.txt"; "index 3..4 100644";
        "--- a/b.txt"; "+++ b/b.txt"; "@@ -8,0 +9 @@"; "+w"]]
      = Ok out.
Proof.
  apply (concatenation_of_well_formed_diffs
           [["diff --git a/a.txt b/a.txt"; "index 1..2 100644";
             "--- a/a.txt"; "+++ b/a.txt"; "@@ -3 +3,2 @@"; "-x"; "+y"; "+z"];
            ["diff --git a/b.txt b/b.txt"; "index 3..4 100644";
             "--- a/b.txt"; "+++ b/b.txt"; "@@ -8,0 +9 @@"; "+w"]]).
  vm_compute. reflexivity.
Defined.

(** *** C10 *)

(** A [+++ ] line names a file only when it starts with [+++ b/]. *)
Lemma new_path_none (raw : string) :
  startswith raw "+++ " = true -> startswith raw "+++ b/" = false ->
  new_path raw = None.
Proof.
  intros H N. peel H. unfold new_path.
  rewrite !rstrip_cons by reflexivity. cbn [drop].
  rewrite startswith_rstrip by reflexivity.
  cbn in N. now rewrite N.
Qed.

(** While the file is unset and no line starts with [+++ b/], nothing is
    yielded and the file stays unset. *)
Lemma run_without_file (diff_lines : list string) (c : Cursor) :
  cur_file c = None ->
  no_new_file diff_lines = true ->
  exists c', run c diff_lines = Ok (c', []) /\ cur_file c' = None.
Proof.
  revert c. induction diff_lines as [|raw rest IH]; intros c F NF.
  - exists c. split; [reflexivity|assumption].
  - unfold no_new_file in NF. cbn [forallb] in NF.
    apply andb_true_iff in NF as [NF1 NF2]. apply negb_true_iff in NF1.
    assert (S : exists c1, step c raw = Ok (c1, []) /\ cur_file c1 = None).
    { destruct (kind raw) eqn:K.
      - rewrite (step_FileSep _ _ K). eexists; split; reflexivity.
      - rewrite (step_NewPath _ _ K). eexists; split; [reflexivity|].
        cbn [set_file cur_file]. apply new_path_none; [|assumption].
        rewrite kind_raw in K.
        destruct (startswith raw "diff --git "); [discriminate|].
        destruct (startswith raw "+++ "); [reflexivity|].
        repeat (destruct (startswith _ _) || destruct (contains _ _));
          discriminate.
      - rewrite (step_OldPath _ _ K). eexists; split; [reflexivity|assumption].
      - rewrite (step_Binary _ _ K). eexists; split; reflexivity.
      - rewrite (step_Hunk _ _ K). eexists; split; [reflexivity|assumption].
      - destruct (step_Content c raw K) as [c1 [out [E [_ [_ D]]]]].
        destruct D as [-> ->]; [auto|].
        exists c. split; assumption. }
    destruct S as [c1 [E1 F1]].
    rewrite (run_cons_silent _ _ _ _ E1). now apply IH.
Qed.

(** C10, as the code has it. A line that contains [Binary files] and does
    not start with [+++ ] or [--- ] (an added or deleted line such as
    [-Binary files a and b differ] included) unsets [cur_file] and yields
    nothing; every line after it yields nothing for as long as none starts
    with [+++ b/]; and a [+++ b/] line then names the file again. *)
Theorem binary_marker_unsets_file
        (c : Cursor) (raw : string) (rest : list string) (p : string) :
  contains raw "Binary files" = true ->
  startswith raw "+++ " = false ->
  startswith raw "--- " = false ->
  no_new_file rest = true ->
  exists c',
    step c raw = Ok (mkCursor None (old_line c) (new_line c), []) /\
    run c (raw :: rest) = Ok (c', []) /\
    cur_file c' = None /\
    step c' ("+++ b/" ++ p)
      = Ok (mkCursor (Some (rstrip p NL)) (old_line c') (new_line c'), []).
Proof.
  intros B HN HO NF.
  assert (S : step c raw = Ok (set_file c None, [])).
  { destruct (startswith raw "diff --git ") eqn:D.
    - apply step_FileSep, kind_FileSep, D.
    - apply step_Binary, kind_Binary; assumption. }
  destruct (run_without_file rest (set_file c None) eq_refl NF)
    as [c' [R F]].
  exists c'. split; [exact S|].
  split; [rewrite (run_cons_silent _ _ _ _ S); exact R|].
  split; [exact F|]. apply step_new_path_b.
Qed.

Lemma binary_marker_unsets_file_witness :
  exists c',
    step (mkCursor (Some "f.txt") (Some 3) (Some 4))
         "-Binary files a and b differ"
      = Ok (mkCursor None (Some 3) (Some 4), []) /\
    run (mkCursor (Some "f.txt") (Some 3) (Some 4))
        ["-Binary files a and b differ"; "-gone"; "+new"; "@@ -9 +9 @@"; "+x"]
      = Ok (c', []) /\
    cur_file c' = None /\
    step c' ("+++ b/" ++ "g.txt")
      = Ok (mkCursor (Some (rstrip "g.txt" NL)) (old_line c') (new_line c'), []).
Proof.
  apply (binary_marker_unsets_file
           (mkCursor (Some "f.txt") (Some 3) (Some 4))
           "-Binary files a and b differ"
           ["-gone"; "+new"; "@@ -9 +9 @@"; "+x"] "g.txt");
    reflexivity.
Defined.

(** C10 fails as stated: a [--- ] or [+++ ] line is consumed as a path
    header before the binary test is reached, whatever it contains; the
    file stays set and the next deletion is yielded. *)
Lemma path_line_with_binary_text_keeps_file :
  step (mkCursor (Some "f.txt") (Some 3) (Some 4)) "--- Binary files ---"
    = Ok (mkCursor (Some "f.txt") (Some 3) (Some 4), []) /\
  iter_changes ["diff --git a/f.txt b/f.txt"; "--- a/f.txt"; "+++ b/f.txt";
                "@@ -3,2 +2,0 @@"; "--- Binary files ---"; "-kept"]
    = Ok [mkChange "f.txt" 3 Del "kept"].
Proof. split; vm_compute; reflexivity. Qed.

(** * The rest of [cli.py] *)

(** ** Splitting on one character and joining *)

Lemma split_from_char_cons (a c : ascii) (s : string) :
  split_from (String a EmptyString) 0 (String c s) =
  if Ascii.eqb c a
  then EmptyString :: split_from (String a EmptyString) 0 s
  else match split_from (String a EmptyString) 0 s with
       | piece :: pieces => String c piece :: pieces
       | [] => [String c EmptyString]
       end.
Proof.
  cbn [split_from startswith String.length Nat.pred].
  rewrite startswith_nil, andb_true_r. reflexivity.
Qed.

Lemma join_cons_char (sep : string) (c : ascii) (p : string) (ps : list string) :
  join sep (String c p :: ps) = String c (join sep (p :: ps)).
Proof. destruct ps; reflexivity. Qed.

(** Joining the pieces of a split with the separator gives the string
    back. *)
Lemma join_split_char (a : ascii) (s : string) :
  join (String a EmptyString) (split s (String a EmptyString)) = s.
Proof.
  unfold split. induction s as [|c s IH]; [reflexivity|].
  rewrite split_from_char_cons.
  destruct (Ascii.eqb_spec c a) as [->|N].
  - destruct (split_from (String a EmptyString) 0 s) as [|p ps] eqn:E.
    + now apply split_from_nonempty in E.
    + cbn [join append]. cbn [join] in IH. rewrite <- IH. reflexivity.
  - destruct (split_from (String a EmptyString) 0 s) as [|p ps] eqn:E.
    + now apply split_from_nonempty in E.
    + rewrite join_cons_char, IH. reflexivity.
Qed.

(** No piece of a split contains the separator. *)
Lemma split_char_pieces (a : ascii) (s : string) :
  Forall (fun p => mem a p = false) (split s (String a EmptyString)).
Proof.
  unfold split. induction s as [|c s IH]; [repeat constructor|].
  rewrite split_from_char_cons.
  destruct (Ascii.eqb_spec c a) as [->|N].
  - constructor; [reflexivity|exact IH].
  - destruct (split_from (String a EmptyString) 0 s) as [|p ps] eqn:E.
    + now apply split_from_nonempty in E.
    + inversion IH as [|? ? Hp Hps]; subst. constructor; [|exact Hps].
      cbn [mem]. rewrite Hp, orb_false_r.
      apply Ascii.eqb_neq. congruence.
Qed.

(** A string without the separator is a single piece. *)
Lemma split_char_none (a : ascii) (s : string) :
  mem a s = false -> split s (String a EmptyString) = [s].
Proof.
  unfold split. induction s as [|c s IH]; intros M; [reflexivity|].
  cbn [mem] in M. apply orb_false_elim in M as [Ma M].
  rewrite split_from_char_cons, Ascii.eqb_sym, Ma, (IH M). reflexivity.
Qed.

(** A piece without the separator, the separator, and the rest: the split
    is the piece and the split of the rest. *)
Lemma split_char_app (a : ascii) (p s : string) :
  mem a p = false ->
  split (p ++ String a s) (String a EmptyString)
  = p :: split s (String a EmptyString).
Proof.
  unfold split. induction p as [|c p IH]; intros M.
  - cbn [append]. rewrite split_from_char_cons, Ascii.eqb_refl. reflexivity.
  - cbn [mem] in M. apply orb_false_elim in M as [Ma M].
    cbn [append]. rewrite split_from_char_cons, Ascii.eqb_sym, Ma, (IH M).
    reflexivity.
Qed.

Lemma split_char_length (a : ascii) (s : string) :
  length (split s (String a EmptyString)) = S (count_char a s).
Proof.
  unfold split. induction s as [|c s IH]; [reflexivity|].
  rewrite split_from_char_cons. cbn [count_char].
  destruct (Ascii.eqb c a).
  - cbn [length]. now rewrite IH.
  - destruct (split_from (String a EmptyString) 0 s) as [|p ps] eqn:E.
    + now apply split_from_nonempty in E.
    + exact IH.
Qed.

(** ** [get_commits] *)

(** X1. A log line yields at most one commit; when it does, the line is
    the four fields of that commit joined by [\x1f], and no field contains
    [\x1f]. *)
Theorem commit_of_line_fields (ln : string) (c : Commit) :
  In c (commit_of_line ln) ->
  commit_of_line ln = [c] /\ ln = commit_line c /\ separator_free c.
Proof.
  unfold commit_of_line. intros I.
  pose proof (join_split_char (ascii_of_N 31) ln) as J.
  pose proof (split_char_pieces (ascii_of_N 31) ln) as P.
  fold US in J, P.
  destruct (split ln US) as [|p0 [|p1 [|p2 [|p3 [|p4 ps]]]]]; try destruct I.
  - subst c. split; [reflexivity|]. split.
    + rewrite <- J. reflexivity.
    + inversion P as [|? ? H0 P1]; subst. inversion P1 as [|? ? H1 P2]; subst.
      inversion P2 as [|? ? H2 P3]; subst. inversion P3 as [|? ? H3 _]; subst.
      repeat split; assumption.
  - destruct H.
Qed.

Lemma commit_of_line_fields_witness :
  commit_of_line (commit_line (mkCommit "3f2a" "Fix parser" "2025-09-02T12:34:56Z" "a@b.org"))
    = [mkCommit "3f2a" "Fix parser" "2025-09-02T12:34:56Z" "a@b.org"] /\
  commit_line (mkCommit "3f2a" "Fix parser" "2025-09-02T12:34:56Z" "a@b.org")
    = commit_line (mkCommit "3f2a" "Fix parser" "2025-09-02T12:34:56Z" "a@b.org") /\
  separator_free (mkCommit "3f2a" "Fix parser" "2025-09-02T12:34:56Z" "a@b.org").
Proof.
  apply (commit_of_line_fields
           (commit_line (mkCommit "3f2a" "Fix parser" "2025-09-02T12:34:56Z" "a@b.org"))
           (mkCommit "3f2a" "Fix parser" "2025-09-02T12:34:56Z" "a@b.org")).
  left. reflexivity.
Defined.

Lemma commit_of_commit_line (c : Commit) :
  separator_free c -> commit_of_line (commit_line c) = [c].
Proof.
  intros [H0 [H1 [H2 H3]]]. unfold commit_of_line, commit_line, US.
  cbn [append].
  rewrite (split_char_app _ _ _ H0), (split_char_app _ _ _ H1),
    (split_char_app _ _ _ H2), (split_char_none _ _ H3).
  destruct c; reflexivity.
Qed.

(** X2. When the lines [run(cmd)] returns are, commit by commit, the four
    fields of the commit joined by [\x1f], and no field contains [\x1f],
    [get_commits] yields exactly those commits, in that order. *)
Theorem get_commits_reads_back
        (run : runner) (limit : option Z) (user_id : option string)
        (commits : list Commit) :
  Forall separator_free commits ->
  run (git_log_cmd limit user_id) = Done (map commit_line commits) ->
  get_commits run limit user_id = Done commits.
Proof.
  intros F R. unfold get_commits. rewrite R. f_equal. clear R.
  induction F as [|c cs Hc _ IH]; [reflexivity|].
  cbn [map flat_map]. rewrite (commit_of_commit_line c Hc), IH. reflexivity.
Qed.

Lemma get_commits_reads_back_witness :
  get_commits
    (fun _ => Done (map commit_line
                        [mkCommit "3f2a" "Fix parser" "2025-09-02T12:34:56Z" "a@b.org";
                         mkCommit "77c1" "Add tests" "2025-09-01T08:00:00Z" "c@d.org"]))
    (Some 2) (Some "org")
  = Done [mkCommit "3f2a" "Fix parser" "2025-09-02T12:34:56Z" "a@b.org";
          mkCommit "77c1" "Add tests" "2025-09-01T08:00:00Z" "c@d.org"].
Proof.
  apply (get_commits_reads_back
           (fun _ => Done (map commit_line
                        [mkCommit "3f2a" "Fix parser" "2025-09-02T12:34:56Z" "a@b.org";
                         mkCommit "77c1" "Add tests" "2025-09-01T08:00:00Z" "c@d.org"]))
           (Some 2) (Some "org")).
  - repeat constructor.
  - reflexivity.
Defined.

(** X3. A log line yields a commit exactly when it holds three [\x1f]:
    with any other number (a subject that contains [\x1f], a blank line)
    the line is skipped without an error. *)
Theorem commit_of_line_three_separators (ln : string) :
  (count_char (ascii_of_N 31) ln = 3%nat -> exists c, commit_of_line ln = [c]) /\
  (count_char (ascii_of_N 31) ln <> 3%nat -> commit_of_line ln = []).
Proof.
  pose proof (split_char_length (ascii_of_N 31) ln) as L. fold US in L.
  unfold commit_of_line.
  destruct (split ln US) as [|p0 [|p1 [|p2 [|p3 [|p4 ps]]]]]; cbn [length] in L;
    split; intros H; try reflexivity; try lia.
  eexists. reflexivity.
Qed.

Lemma commit_of_line_three_separators_witness :
  exists c, commit_of_line (commit_line (mkCommit "3f2a" "Fix" "2025" "a@b.org")) = [c].
Proof.
  apply (proj1 (commit_of_line_three_separators
                  (commit_line (mkCommit "3f2a" "Fix" "2025" "a@b.org")))).
  reflexivity.
Defined.

(** ** [write_history]: grouping by file *)

Lemma existsb_eqb_In (x : string) (xs : list string) :
  existsb (String.eqb x) xs = true <-> In x xs.
Proof.
  rewrite existsb_exists. split.
  - intros [y [I E]]. apply String.eqb_eq in E. now subst.
  - intros I. exists x. split; [assumption|apply String.eqb_refl].
Qed.

Lemma first_seen_app (seen xs ys : list string) :
  first_seen seen (xs ++ ys) = first_seen (first_seen seen xs) ys.
Proof.
  revert seen. induction xs as [|x xs IH]; intros seen; [reflexivity|].
  cbn [app first_seen]. apply IH.
Qed.

Lemma first_seen_In (xs seen : list string) (x : string) :
  In x (first_seen seen xs) <-> In x seen \/ In x xs.
Proof.
  revert seen. induction xs as [|y xs IH]; intros seen; cbn [first_seen In].
  - tauto.
  - rewrite IH. destruct (existsb (String.eqb y) seen) eqn:E.
    + apply existsb_eqb_In in E. split; [tauto|].
      intros [H|[->|H]]; auto.
    + rewrite in_app_iff. cbn [In]. tauto.
Qed.

Lemma first_seen_NoDup (xs seen : list string) :
  NoDup seen -> NoDup (first_seen seen xs).
Proof.
  revert seen. induction xs as [|y xs IH]; intros seen ND; [exact ND|].
  cbn [first_seen]. apply IH.
  destruct (existsb (String.eqb y) seen) eqn:E; [exact ND|].
  apply NoDup_app; [exact ND|repeat constructor; intros []|].
  intros a I [Ea|[]]. subst a.
  apply (proj2 (existsb_eqb_In y seen)) in I. congruence.
Qed.

Lemma changes_of_app (k : string) (done : list ChangeRecord) (ch : ChangeRecord) :
  changes_of k (done ++ [ch])
  = changes_of k done ++ (if String.eqb (file ch) k then [ch] else []).
Proof. unfold changes_of. rewrite filter_app. reflexivity. Qed.

Lemma changes_of_absent (k : string) (done : list ChangeRecord) :
  ~ In k (map file done) -> changes_of k done = [].
Proof.
  induction done as [|c done IH]; intros N; [reflexivity|].
  cbn [map In] in N. unfold changes_of. cbn [filter].
  destruct (String.eqb_spec (file c) k) as [E|_]; [tauto|].
  apply IH. tauto.
Qed.

(** One [setdefault(...).append(ch)] on a dict that holds, for each key, the
    changes of that file seen so far. *)
Lemma setdefault_append_entries
      (keys : list string) (done : list ChangeRecord) (ch : ChangeRecord) :
  (~ In (file ch) keys -> changes_of (file ch) done = []) ->
  NoDup keys ->
  setdefault_append (file ch) ch (map (fun k => (k, changes_of k done)) keys)
  = map (fun k => (k, changes_of k (done ++ [ch])))
        (if existsb (String.eqb (file ch)) keys then keys else keys ++ [file ch]).
Proof.
  induction keys as [|k keys IH]; intros Abs ND.
  - cbn. rewrite changes_of_app, String.eqb_refl, Abs by tauto. reflexivity.
  - inversion ND as [|? ? Nk ND']; subst.
    cbn [map setdefault_append existsb].
    destruct (String.eqb_spec k (file ch)) as [->|N].
    + rewrite String.eqb_refl. cbn [orb map].
      rewrite changes_of_app, String.eqb_refl. f_equal.
      apply map_ext_in. intros k' I. rewrite changes_of_app.
      destruct (String.eqb_spec (file ch) k') as [<-|_]; [contradiction|].
      now rewrite app_nil_r.
    + assert (E : String.eqb (file ch) k = false)
        by (apply String.eqb_neq; congruence).
      rewrite E, IH; [|cbn [In] in Abs; tauto|exact ND'].
      cbn [orb].
      destruct (existsb (String.eqb (file ch)) keys); cbn [map app];
        rewrite (changes_of_app k), E, app_nil_r; reflexivity.
Qed.

Lemma group_by_file_from (rest done : list ChangeRecord) :
  fold_left (fun by_file ch => setdefault_append (file ch) ch by_file) rest
            (map (fun k => (k, changes_of k done)) (first_seen [] (map file done)))
  = map (fun k => (k, changes_of k (done ++ rest)))
        (first_seen [] (map file (done ++ rest))).
Proof.
  revert done. induction rest as [|ch rest IH]; intros done.
  - now rewrite app_nil_r.
  - cbn [fold_left]. rewrite setdefault_append_entries.
    + replace (done ++ ch :: rest) with ((done ++ [ch]) ++ rest)
        by (now rewrite <- app_assoc).
      rewrite <- IH. f_equal. f_equal.
      rewrite map_app, first_seen_app. reflexivity.
    + intros N. apply changes_of_absent. intros I. apply N.
      apply first_seen_In. now right.
    + apply first_seen_NoDup. constructor.
Qed.

Lemma group_by_file_map (changes : list ChangeRecord) :
  group_by_file changes
  = map (fun f => (f, changes_of f changes)) (first_seen [] (map file changes)).
Proof. unfold group_by_file. exact (group_by_file_from changes []). Qed.

(** X4. The grouping that [write_history] builds has one entry per
    distinct file, in the order in which the files first occur, and the
    entry of a file holds exactly the changes of that file, in their
    original order. *)
Theorem group_by_file_entries (changes : list ChangeRecord) :
  group_by_file changes
  = map (fun f => (f, changes_of f changes)) (first_seen [] (map file changes)) /\
  NoDup (map fst (group_by_file changes)) /\
  (forall f, In f (map fst (group_by_file changes)) <-> In f (map file changes)).
Proof.
  assert (E : group_by_file changes
              = map (fun f => (f, changes_of f changes))
                    (first_seen [] (map file changes))).
  { unfold group_by_file. exact (group_by_file_from changes []). }
  split; [exact E|]. rewrite E, map_map. cbn [fst]. rewrite map_id.
  split; [apply first_seen_NoDup; constructor|].
  intros f. rewrite first_seen_In. cbn [In]. tauto.
Qed.

(** ** [write_history]: one commit's block *)

Lemma setdefault_append_total_length
      (key : string) (ch : ChangeRecord) (d : list (string * list ChangeRecord)) :
  length (concat (map snd (setdefault_append key ch d)))
  = S (length (concat (map snd d))).
Proof.
  induction d as [|[k items] d IH]; [reflexivity|].
  cbn [setdefault_append]. destruct (String.eqb k key); cbn [map snd concat].
  - rewrite !length_app. cbn [length]. lia.
  - rewrite !length_app, IH. lia.
Qed.

Lemma group_by_file_total_length (changes : list ChangeRecord) :
  length (concat (map snd (group_by_file changes))) = length changes.
Proof.
  unfold group_by_file.
  assert (G : forall d,
             length (concat (map snd (fold_left
               (fun by_file ch => setdefault_append (file ch) ch by_file)
               changes d)))
             = (length (concat (map snd d)) + length changes)%nat).
  { induction changes as [|ch rest IH]; intros d; cbn [fold_left length];
      [lia|]. rewrite IH, setdefault_append_total_length. lia. }
  rewrite G. reflexivity.
Qed.

Lemma render_change_not_fence (ch : ChangeRecord) :
  render_change ch <> FENCE /\ render_change ch <> OPEN_FENCE.
Proof. split; discriminate. Qed.

Lemma count_occ_render_file (entry : string * list ChangeRecord) :
  count_occ string_dec (render_file entry) OPEN_FENCE = 1%nat /\
  count_occ string_dec (render_file entry) FENCE = 0%nat /\
  length (render_file entry) = (2 + length (snd entry))%nat.
Proof.
  destruct entry as [fname items]. unfold render_file.
  assert (M : forall x, x = FENCE \/ x = OPEN_FENCE ->
                        count_occ string_dec (map render_change items) x = 0%nat).
  { intros x Hx. apply count_occ_not_In. intros I.
    apply in_map_iff in I as [ch [E _]].
    destruct (render_change_not_fence ch). destruct Hx; congruence. }
  rewrite !count_occ_app, !M by auto.
  split; [|split].
  - cbn [count_occ].
    destruct (string_dec _ OPEN_FENCE) as [E|_]; [discriminate E|].
    destruct (string_dec _ OPEN_FENCE) as [_|N]; [reflexivity|].
    now contradiction N.
  - cbn [count_occ].
    destruct (string_dec _ FENCE) as [E|_]; [discriminate E|].
    destruct (string_dec _ FENCE) as [E|_]; [discriminate E|reflexivity].
  - rewrite length_app, length_map. reflexivity.
Qed.

Lemma count_occ_render_files (g : list (string * list ChangeRecord)) :
  count_occ string_dec (flat_map render_file g) OPEN_FENCE = length g /\
  count_occ string_dec (flat_map render_file g) FENCE = 0%nat /\
  length (flat_map render_file g)
  = (2 * length g + length (concat (map snd g)))%nat.
Proof.
  induction g as [|entry g [IH1 [IH2 IH3]]]; [repeat split|].
  destruct (count_occ_render_file entry) as [H1 [H2 H3]].
  cbn [flat_map map concat length].
  rewrite !count_occ_app, !length_app, H1, H2, H3, IH1, IH2, IH3.
  repeat split; lia.
Qed.

(** X5. The block of a commit holds one line per change besides its
    heading; it opens a [```diff] fence for every distinct file of the
    changes and closes a fence exactly once, at its end, however many files
    there are. *)
Theorem commit_block_fences
        (to_et : string -> string) (dash : string) (c : Commit)
        (changes : list ChangeRecord) :
  let files := first_seen [] (map file changes) in
  let block := commit_block to_et dash c changes in
  count_occ string_dec block OPEN_FENCE = length files /\
  count_occ string_dec block FENCE = 1%nat /\
  length block = (2 + 2 * length files + length changes)%nat /\
  last block EmptyString = FENCE.
Proof.
  cbv zeta. unfold commit_block.
  destruct (count_occ_render_files (group_by_file changes)) as [H1 [H2 H3]].
  pose proof (group_by_file_map changes) as E.
  assert (L : length (group_by_file changes)
              = length (first_seen [] (map file changes)))
    by (now rewrite E, length_map).
  rewrite !count_occ_app, !length_app, H1, H2, H3,
    group_by_file_total_length, L.
  split; [|split; [|split]].
  - cbn [count_occ app].
    destruct (string_dec _ OPEN_FENCE) as [D|_]; [discriminate D|].
    destruct (string_dec _ OPEN_FENCE) as [D|_]; [discriminate D|].
    cbn [count_occ]. lia.
  - cbn [count_occ app].
    destruct (string_dec _ FENCE) as [D|_]; [discriminate D|].
    destruct (string_dec FENCE FENCE) as [_|N]; [|now contradiction N].
    cbn [count_occ]. lia.
  - cbn [length]. lia.
  - rewrite app_assoc. apply last_last.
Qed.

(** ** [write_history]: the whole report *)









(** ** Decimal numerals *)

Lemma all_chars_app (p : ascii -> bool) (s t : string) :
  all_chars p (s ++ t) = all_chars p s && all_chars p t.
Proof.
  induction s as [|c s IH]; [reflexivity|].
  cbn [append all_chars]. now rewrite IH, andb_assoc.
Qed.

Lemma all_chars_mem (p : ascii -> bool) (a : ascii) (s : string) :
  all_chars p s = true -> p a = false -> mem a s = false.
Proof.
  intros A Pa. induction s as [|c s IH]; [reflexivity|].
  cbn [all_chars] in A. apply andb_true_iff in A as [Pc A].
  cbn [mem]. rewrite (IH A), orb_false_r.
  apply Ascii.eqb_neq. intros ->. congruence.
Qed.

Lemma all_chars_weaken (p q : ascii -> bool) (s : string) :
  (forall c, p c = true -> q c = true) ->
  all_chars p s = true -> all_chars q s = true.
Proof.
  intros W. induction s as [|c s IH]; [reflexivity|].
  cbn [all_chars]. intros A. apply andb_true_iff in A as [Pc A].
  now rewrite (W c Pc), (IH A).
Qed.

Lemma string_of_uint_digits (d : Decimal.uint) :
  all_chars is_digit (NilEmpty.string_of_uint d) = true.
Proof. induction d; cbn [NilEmpty.string_of_uint all_chars]; auto. Qed.

Lemma to_uint_string (p : positive) :
  NilZero.string_of_uint (Pos.to_uint p) = NilEmpty.string_of_uint (Pos.to_uint p).
Proof.
  pose proof (DecimalPos.Unsigned.to_uint_nonnil p) as N.
  destruct (Pos.to_uint p); [contradiction|reflexivity..].
Qed.

(** [str n] is an optional minus sign and digits. *)
Lemma str_chars (n : Z) :
  all_chars (fun c => is_digit c || Ascii.eqb c "-") (str n) = true.
Proof.
  assert (W : forall d, all_chars (fun c => is_digit c || Ascii.eqb c "-")
                                  (NilEmpty.string_of_uint d) = true).
  { intros d. apply (all_chars_weaken is_digit); [|apply string_of_uint_digits].
    intros c ->. reflexivity. }
  unfold str. destruct n as [|p|p]; cbn [Z.to_int NilZero.string_of_int].
  - reflexivity.
  - rewrite to_uint_string. apply W.
  - rewrite to_uint_string. cbn [all_chars]. rewrite W. reflexivity.
Qed.

(** ** [write_history]: escaping *)

Lemma replace_backtick_cons (c : ascii) (s : string) :
  replace (String c s) BACKTICK ESCAPED_BACKTICK =
  if Ascii.eqb c (ascii_of_N 96)
  then (ESCAPED_BACKTICK ++ replace s BACKTICK ESCAPED_BACKTICK)%string
  else String c (replace s BACKTICK ESCAPED_BACKTICK).
Proof.
  unfold replace, BACKTICK.
  cbn [replace_from startswith String.length Nat.pred].
  rewrite startswith_nil, andb_true_r. reflexivity.
Qed.

Lemma replace_backtick_escaped (s : string) (b : bool) :
  backticks_escaped b (replace s BACKTICK ESCAPED_BACKTICK) = true.
Proof.
  revert b. induction s as [|c s IH]; intros b; [reflexivity|].
  rewrite replace_backtick_cons.
  destruct (Ascii.eqb c (ascii_of_N 96)) eqn:E.
  - cbn. apply IH.
  - cbn [backticks_escaped]. rewrite E. cbn [andb]. apply IH.
Qed.

Lemma backticks_escaped_app (s t : string) :
  mem (ascii_of_N 96) s = false ->
  (forall b, backticks_escaped b t = true) ->
  forall b, backticks_escaped b (s ++ t) = true.
Proof.
  intros M T. induction s as [|c s IH]; intros b; [apply T|].
  cbn [mem] in M. apply orb_false_elim in M as [Mc M].
  cbn [append backticks_escaped]. rewrite Ascii.eqb_sym, Mc. cbn [andb].
  now apply IH.
Qed.

(** X8. In the line written for a change, every backtick is immediately
    preceded by a backslash. *)
Theorem render_change_backticks_escaped (ch : ChangeRecord) :
  backticks_escaped false (render_change ch) = true.
Proof.
  unfold render_change.
  apply (backticks_escaped_app "- L"); [reflexivity|].
  apply backticks_escaped_app.
  { apply (all_chars_mem _ _ _ (str_chars (line ch))). reflexivity. }
  apply (backticks_escaped_app ": "); [reflexivity|].
  apply backticks_escaped_app; [destruct (type ch); reflexivity|].
  apply (backticks_escaped_app " "); [reflexivity|].
  apply replace_backtick_escaped.
Qed.

(** ** [int] reads back what [str] writes *)

Lemma of_uint_acc_value (d : Decimal.uint) (acc : positive) :
  Z.pos (Pos.of_uint_acc d acc) = digits_value d (Z.pos acc).
Proof.
  revert acc. induction d; intros acc; cbn [Pos.of_uint_acc digits_value];
    [reflexivity|rewrite IHd; f_equal; lia..].
Qed.

Lemma of_uint_value (d : Decimal.uint) :
  Z.of_N (Pos.of_uint d) = digits_value d 0.
Proof.
  induction d; cbn [Pos.of_uint digits_value Z.of_N];
    rewrite ?of_uint_acc_value; first [exact IHd | reflexivity].
Qed.

Ltac eval_digit :=
  repeat match goal with
         | |- context [is_digit ?c] => change (is_digit c) with true
         | |- context [digit_value ?c] =>
             let v := eval vm_compute in (digit_value c) in
             change (digit_value c) with v
         end.

Lemma scan_digits_uint (d : Decimal.uint) (rest : string) (acc : Z) (n : nat) :
  scan_digits (NilEmpty.string_of_uint d ++ rest) false acc n
  = scan_digits rest false (digits_value d acc) (n + Decimal.nb_digits d).
Proof.
  revert acc n. induction d; intros acc n;
    cbn [NilEmpty.string_of_uint append Decimal.nb_digits digits_value];
    [now rewrite Nat.add_0_r|
     cbn [scan_digits]; eval_digit; rewrite IHd, ?Z.add_0_r; f_equal; lia..].
Qed.

Lemma scan_digits_numeral (d : Decimal.uint) :
  scan_digits (NilEmpty.string_of_uint d) false 0 0
  = Some (digits_value d 0, Decimal.nb_digits d, EmptyString).
Proof.
  pose proof (scan_digits_uint d EmptyString 0 0) as S.
  assert (A : forall s, (s ++ "")%string = s)
    by (induction s as [|c s IH]; [reflexivity|cbn; now rewrite IH]).
  rewrite A in S. rewrite S. reflexivity.
Qed.

(** [int] on a numeral without a sign. *)
Lemma int_numeral (d : Decimal.uint) :
  d <> Decimal.Nil ->
  (Decimal.nb_digits d <= int_max_str_digits)%nat ->
  int (NilEmpty.string_of_uint d) = Ok (digits_value d 0).
Proof.
  intros N L.
  assert (P : (Decimal.nb_digits d =? 0)%nat = false)
    by (destruct d; [contradiction|reflexivity..]).
  assert (Q : (int_max_str_digits <? Decimal.nb_digits d)%nat = false)
    by (apply Nat.ltb_ge; exact L).
  pose proof (scan_digits_numeral d) as S.
  destruct d; [contradiction|..];
    unfold int; cbn [NilEmpty.string_of_uint lstrip_with] in *;
    match goal with
    | |- context [is_int_space ?c] => change (is_int_space c) with false
    end; cbv iota beta;
    match goal with
    | |- context [startswith ?s "_"] => change (startswith s "_") with false
    end; cbv iota;
    rewrite S, P, Q; reflexivity.
Qed.

(** The number of digits [str] writes for [n]. *)
Lemma str_nonneg (p : positive) :
  str (Z.pos p) = NilEmpty.string_of_uint (Pos.to_uint p) /\
  str (Z.neg p) = String "-" (NilEmpty.string_of_uint (Pos.to_uint p)).
Proof.
  unfold str. cbn [Z.to_int NilZero.string_of_int].
  now rewrite to_uint_string.
Qed.

Lemma string_of_uint_length (d : Decimal.uint) :
  String.length (NilEmpty.string_of_uint d) = Decimal.nb_digits d.
Proof. induction d; cbn [NilEmpty.string_of_uint String.length Decimal.nb_digits]; auto. Qed.

Lemma int_negative_numeral (d : Decimal.uint) :
  d <> Decimal.Nil ->
  (Decimal.nb_digits d <= int_max_str_digits)%nat ->
  int (String "-" (NilEmpty.string_of_uint d)) = Ok (- digits_value d 0).
Proof.
  intros N L.
  assert (P : (Decimal.nb_digits d =? 0)%nat = false)
    by (destruct d; [contradiction|reflexivity..]).
  assert (Q : (int_max_str_digits <? Decimal.nb_digits d)%nat = false)
    by (apply Nat.ltb_ge; exact L).
  assert (U : startswith (NilEmpty.string_of_uint d) "_" = false)
    by (destruct d; [contradiction|reflexivity..]).
  unfold int. cbn [lstrip_with].
  change (is_int_space "-") with false. cbv iota beta.
  rewrite U, scan_digits_numeral, P, Q. reflexivity.
Qed.

(** [int(str(n)) == n], as long as [n] has no more digits than [int]
    accepts. *)
Lemma int_str (n : Z) :
  (String.length (str (Z.abs n)) <= int_max_str_digits)%nat ->
  int (str n) = Ok n.
Proof.
  destruct n as [|p|p]; intros L.
  - reflexivity.
  - cbn [Z.abs] in L. destruct (str_nonneg p) as [E _]. rewrite E in *.
    rewrite string_of_uint_length in L.
    rewrite int_numeral;
      [|apply DecimalPos.Unsigned.to_uint_nonnil|exact L].
    now rewrite <- of_uint_value, DecimalPos.Unsigned.of_to.
  - cbn [Z.abs] in L. destruct (str_nonneg p) as [E E']. rewrite E in L.
    rewrite E'. rewrite string_of_uint_length in L.
    rewrite int_negative_numeral;
      [|apply DecimalPos.Unsigned.to_uint_nonnil|exact L].
    now rewrite <- of_uint_value, DecimalPos.Unsigned.of_to.
Qed.

(** ** Hunk headers as git writes them *)

Lemma append_nil_r (s : string) : (s ++ "")%string = s.
Proof. induction s as [|c s IH]; [reflexivity|cbn; now rewrite IH]. Qed.

Lemma append_assoc (s t u : string) : ((s ++ t) ++ u = s ++ t ++ u)%string.
Proof. induction s as [|c s IH]; [reflexivity|cbn; now rewrite IH]. Qed.

(** No separator starts inside a string that lacks its first character. *)
Lemma split_from_clean_prefix (a : ascii) (sep' s t : string) :
  mem a s = false ->
  split_from (String a sep') 0 (s ++ t) =
  match split_from (String a sep') 0 t with
  | piece :: pieces => (s ++ piece)%string :: pieces
  | [] => [s]
  end.
Proof.
  intros M. induction s as [|c s IH].
  - cbn [append]. destruct (split_from (String a sep') 0 t) eqn:E;
      [now apply split_from_nonempty in E|reflexivity].
  - cbn [mem] in M. apply orb_false_elim in M as [Ma M].
    cbn [append split_from startswith]. rewrite Ascii.eqb_sym, Ma. cbn [andb].
    rewrite (IH M).
    destruct (split_from (String a sep') 0 t); reflexivity.
Qed.

Lemma rstrip_with_keep (p : ascii -> bool) (s t : string) :
  rstrip_with p t <> EmptyString ->
  rstrip_with p (s ++ t) = (s ++ rstrip_with p t)%string.
Proof.
  intros N. induction s as [|c s IH]; [reflexivity|].
  cbn [append rstrip_with]. rewrite IH.
  destruct (s ++ rstrip_with p t)%string eqn:E; [|reflexivity].
  destruct s; [cbn in E; contradiction|discriminate].
Qed.

Lemma rstrip_with_clean (p : ascii -> bool) (r : string) (trail : string) :
  all_chars (fun c => negb (p c)) r = true ->
  all_chars p trail = true ->
  rstrip_with p (r ++ trail) = r.
Proof.
  intros A T. induction r as [|c r IH].
  - cbn [append]. induction trail as [|c trail IHt]; [reflexivity|].
    cbn [all_chars] in T. apply andb_true_iff in T as [Pc T].
    cbn [rstrip_with]. now rewrite (IHt T), Pc.
  - cbn [all_chars] in A. apply andb_true_iff in A as [Pc A].
    apply negb_true_iff in Pc.
    cbn [append rstrip_with]. rewrite (IH A).
    destruct r; [now rewrite Pc|reflexivity].
Qed.

Lemma rstrip_app (s t : string) :
  mem newline s = false -> rstrip (s ++ t) NL = (s ++ rstrip t NL)%string.
Proof.
  intros M. induction s as [|c s IH]; [reflexivity|].
  cbn [mem] in M. apply orb_false_elim in M as [Mc M].
  cbn [append]. rewrite rstrip_cons by (now rewrite Ascii.eqb_sym).
  now rewrite (IH M).
Qed.

Lemma contains_clean_prefix (a : ascii) (p s t : string) :
  mem a s = false ->
  contains (s ++ t) (String a p) = contains t (String a p).
Proof.
  intros M. induction s as [|c s IH]; [reflexivity|].
  cbn [mem] in M. apply orb_false_elim in M as [Mc M].
  cbn [append contains startswith]. rewrite Ascii.eqb_sym, Mc. cbn [andb orb].
  apply (IH M).
Qed.

Lemma mem_app (a : ascii) (s t : string) :
  mem a (s ++ t) = mem a s || mem a t.
Proof.
  induction s as [|c s IH]; [reflexivity|].
  cbn [append mem]. now rewrite IH, orb_assoc.
Qed.

Lemma str_range_chars (n : Z) : all_chars is_range_char (str n) = true.
Proof.
  apply (all_chars_weaken (fun c => is_digit c || Ascii.eqb c "-"));
    [|apply str_chars].
  intros c H. unfold is_range_char. now rewrite H.
Qed.

Lemma str_nonempty (n : Z) : str n <> EmptyString.
Proof.
  destruct n as [|p|p]; [discriminate| |].
  - destruct (str_nonneg p) as [E _]. rewrite E.
    pose proof (DecimalPos.Unsigned.to_uint_nonnil p).
    destruct (Pos.to_uint p); [contradiction|discriminate..].
  - destruct (str_nonneg p) as [_ E]. rewrite E. discriminate.
Qed.

Lemma hunk_range_chars (start count : Z) :
  all_chars is_range_char (hunk_range start count) = true.
Proof.
  unfold hunk_range. rewrite all_chars_app, str_range_chars.
  destruct (count =? 1); [reflexivity|].
  cbn [append all_chars andb]. change (is_range_char ",") with true.
  apply str_range_chars.
Qed.

Lemma hunk_range_nonempty (start count : Z) :
  hunk_range start count <> EmptyString.
Proof.
  unfold hunk_range. pose proof (str_nonempty start).
  destruct (str start); [contradiction|discriminate].
Qed.

(** The start of a range is what [int(x.split(",")[0][1:])] reads from the
    range behind its sign character. *)
Lemma int_of_range (sign : ascii) (start count : Z) :
  Ascii.eqb sign "," = false ->
  (String.length (str (Z.abs start)) <= int_max_str_digits)%nat ->
  (l0 <- index (split (String sign (hunk_range start count)) ",") 0 ;;
   int (drop 1 l0)) = Ok start.
Proof.
  intros S L.
  assert (M : mem "," (String sign (str start)) = false).
  { cbn [mem]. rewrite Ascii.eqb_sym, S.
    apply (all_chars_mem _ _ _ (str_chars start)). reflexivity. }
  unfold hunk_range. destruct (count =? 1).
  - rewrite append_nil_r, (split_char_none _ _ M).
    cbn [index nth_error bind drop]. now apply int_str.
  - change (String sign (str start ++ "," ++ str count))%string
      with (String sign (str start) ++ String "," (str count))%string.
    rewrite (split_char_app _ _ _ M).
    cbn [index nth_error bind drop]. now apply int_str.
Qed.

Lemma split_from_at_at (t : string) :
  split_from "@@" 0 ("@@" ++ t) = EmptyString :: split_from "@@" 0 t.
Proof.
  cbn [append split_from startswith String.length Nat.pred].
  rewrite !Ascii.eqb_refl, startswith_nil. reflexivity.
Qed.

(** The two halves [header.split(" ")] gives for [@@ -R1 +R2 @@...]. *)
Lemma header_halves (R1 R2 heading : string) :
  all_chars is_range_char R1 = true ->
  all_chars is_range_char R2 = true ->
  R2 <> EmptyString ->
  (piece <- index (split ("@@ -" ++ R1 ++ " +" ++ R2 ++ " @@" ++ heading) "@@") 1 ;;
   unpack2 (split (strip piece) " "))
  = Ok (String "-" R1, String "+" R2).
Proof.
  intros C1 C2 N2.
  assert (P : index (split ("@@ -" ++ R1 ++ " +" ++ R2 ++ " @@" ++ heading) "@@") 1
              = Ok (" -" ++ R1 ++ " +" ++ R2 ++ " ")%string).
  { replace ("@@ -" ++ R1 ++ " +" ++ R2 ++ " @@" ++ heading)%string
      with ("@@" ++ (" -" ++ R1 ++ " +" ++ R2 ++ " ") ++ "@@" ++ heading)%string.
    2:{ cbn [append]. rewrite ?append_assoc. cbn [append].
        rewrite ?append_assoc. reflexivity. }
    unfold split. rewrite split_from_at_at, split_from_clean_prefix.
    2:{ rewrite !mem_app.
        rewrite (all_chars_mem _ _ _ C1), (all_chars_mem _ _ _ C2) by reflexivity.
        reflexivity. }
    rewrite split_from_at_at.
    destruct (split_from "@@" 0 heading) eqn:E;
      [now apply split_from_nonempty in E|].
    rewrite append_nil_r. reflexivity. }
  rewrite P. cbn [bind].
  assert (S : strip (" -" ++ R1 ++ " +" ++ R2 ++ " ")
              = ("-" ++ R1 ++ " +" ++ R2)%string).
  { unfold strip.
    assert (L : lstrip_with is_space (" -" ++ R1 ++ " +" ++ R2 ++ " ")
                = ("-" ++ R1 ++ " +" ++ R2 ++ " ")%string) by reflexivity.
    rewrite L.
    replace ("-" ++ R1 ++ " +" ++ R2 ++ " ")%string
      with (("-" ++ R1 ++ " +") ++ (R2 ++ " "))%string
      by (cbn [append]; rewrite ?append_assoc; reflexivity).
    assert (K : rstrip_with is_space (R2 ++ " ") = R2).
    { apply rstrip_with_clean; [|reflexivity].
      apply (all_chars_weaken is_range_char); [|exact C2].
      intros c. unfold is_range_char, is_digit, is_space, code.
      destruct c as [[] [] [] [] [] [] [] []]; cbn; congruence. }
    rewrite rstrip_with_keep; rewrite K; [|exact N2].
    cbn [append]. rewrite ?append_assoc. reflexivity. }
  rewrite S.
  change ("-" ++ R1 ++ " +" ++ R2)%string
    with (String "-" R1 ++ String " " (String "+" R2))%string.
  rewrite split_char_app.
  2:{ cbn [mem]. rewrite (all_chars_mem _ _ _ C1) by reflexivity. reflexivity. }
  rewrite split_char_none.
  2:{ cbn [mem]. rewrite (all_chars_mem _ _ _ C2) by reflexivity. reflexivity. }
  reflexivity.
Qed.

(** What the [try] block reads from a hunk header as git writes it. *)
Lemma parse_hunk_header_git
      (old_start old_count new_start new_count : Z) (heading : string) :
  (String.length (str (Z.abs old_start)) <= int_max_str_digits)%nat ->
  (String.length (str (Z.abs new_start)) <= int_max_str_digits)%nat ->
  parse_hunk_header (hunk_header old_start old_count new_start new_count heading)
  = Ok (old_start, new_start).
Proof.
  intros LO LN. unfold parse_hunk_header, hunk_header.
  pose proof (header_halves (hunk_range old_start old_count)
                (hunk_range new_start new_count) heading
                (hunk_range_chars _ _) (hunk_range_chars _ _)
                (hunk_range_nonempty _ _)) as H.
  destruct (index _ 1) as [piece|e]; [|discriminate H].
  cbn [bind] in H |- *. rewrite H. cbn [bind].
  pose proof (int_of_range "-" old_start old_count eq_refl LO) as IO.
  pose proof (int_of_range "+" new_start new_count eq_refl LN) as IN.
  destruct (index (split (String "-" _) ",") 0) as [l0|e]; [|discriminate IO].
  cbn [bind] in IO |- *. rewrite IO. cbn [bind].
  destruct (index (split (String "+" _) ",") 0) as [r0|e]; [|discriminate IN].
  cbn [bind] in IN |- *. rewrite IN. reflexivity.
Qed.

Lemma step_hunk_header_counters
        (c : Cursor) (old_start old_count new_start new_count : Z)
        (heading : string) :
  (String.length (str (Z.abs old_start)) <= int_max_str_digits)%nat ->
  (String.length (str (Z.abs new_start)) <= int_max_str_digits)%nat ->
  contains heading "Binary files" = false ->
  step c (hunk_header old_start old_count new_start new_count heading)
  = Ok (mkCursor (cur_file c) (Some old_start) (Some new_start), []).
Proof.
  intros LO LN B.
  set (R1 := hunk_range old_start old_count).
  set (R2 := hunk_range new_start new_count).
  assert (C1 : all_chars is_range_char R1 = true) by apply hunk_range_chars.
  assert (C2 : all_chars is_range_char R2 = true) by apply hunk_range_chars.
  assert (E : forall h, hunk_header old_start old_count new_start new_count h
                        = (("@@ -" ++ R1 ++ " +" ++ R2 ++ " @@") ++ h)%string).
  { intros h. unfold hunk_header. fold R1 R2.
    cbn [append]. rewrite ?append_assoc. cbn [append].
    rewrite ?append_assoc. reflexivity. }
  assert (M : forall a, is_range_char a = false ->
                        Ascii.eqb a "@" = false -> Ascii.eqb a " " = false ->
                        Ascii.eqb a "+" = false ->
                        mem a ("@@ -" ++ R1 ++ " +" ++ R2 ++ " @@") = false).
  { intros a Ha H1 H2 H3. rewrite !mem_app.
    rewrite (all_chars_mem _ _ _ C1 Ha), (all_chars_mem _ _ _ C2 Ha).
    cbn [mem]. rewrite H1, H2, H3.
    unfold is_range_char in Ha. apply orb_false_elim in Ha as [Ha _].
    apply orb_false_elim in Ha as [_ Ha]. rewrite Ha. reflexivity. }
  assert (K : kind (hunk_header old_start old_count new_start new_count heading)
              = Hunk).
  { apply kind_Hunk; [reflexivity|].
    rewrite E, contains_clean_prefix; [exact B|].
    apply M; reflexivity. }
  rewrite (step_Hunk _ _ K). unfold hunk_counters.
  rewrite E, rstrip_app by (apply M; reflexivity).
  rewrite <- E, parse_hunk_header_git by assumption.
  reflexivity.
Qed.

(** X9. A hunk header as git writes it, [@@ -a[,b] +c[,d] @@] followed by
    any section heading without [Binary files], sets the old counter to [a]
    and the new counter to [c], whatever the cursor held, provided [a] and
    [c] have no more digits than [int] accepts. *)
Theorem step_git_hunk_header
        (c : Cursor) (old_start old_count new_start new_count : Z)
        (heading : string) :
  (String.length (str (Z.abs old_start)) <= int_max_str_digits)%nat ->
  (String.length (str (Z.abs new_start)) <= int_max_str_digits)%nat ->
  contains heading "Binary files" = false ->
  step c (hunk_header old_start old_count new_start new_count heading)
  = Ok (mkCursor (cur_file c) (Some old_start) (Some new_start), []).
Proof. apply step_hunk_header_counters. Qed.

Lemma step_git_hunk_header_witness :
  step (mkCursor (Some "f.txt") (Some 90) None)
       (hunk_header 10 0 11 2 " def parse(lines):")
  = Ok (mkCursor (Some "f.txt") (Some 10) (Some 11), []).
Proof.
  apply (step_git_hunk_header (mkCursor (Some "f.txt") (Some 90) None)
           10 0 11 2 " def parse(lines):");
    [apply Nat.leb_le; vm_compute; reflexivity..|reflexivity].
Defined.

Lemma run_deletions (f : string) (n : Z) (texts : list string) :
  forallb plain_deleted texts = true ->
  forall o,
    run (mkCursor (Some f) (Some o) (Some n)) (map (append "-") texts)
    = Ok (mkCursor (Some f) (Some (o + Z.of_nat (length texts))) (Some n),
          numbered f Del o texts).
Proof.
  induction texts as [|t rest IH]; intros P o.
  - cbn. now rewrite Z.add_0_r.
  - cbn [forallb] in P. apply andb_true_iff in P as [Pt P].
    unfold plain_deleted in Pt. apply andb_true_iff in Pt as [P1 P2].
    apply negb_true_iff in P1, P2.
    cbn [map]. rewrite (run_cons _ _ _ _ _ (step_del f o n t P1 P2)).
    rewrite (IH P). cbn [bind ret numbered app length].
    rewrite Nat2Z.inj_succ.
    replace (o + 1 + Z.of_nat (length rest))
      with (o + Z.succ (Z.of_nat (length rest))) by lia.
    reflexivity.
Qed.

Lemma run_additions (f : string) (o : Z) (texts : list string) :
  forallb plain_added texts = true ->
  forall n,
    run (mkCursor (Some f) (Some o) (Some n)) (map (append "+") texts)
    = Ok (mkCursor (Some f) (Some o) (Some (n + Z.of_nat (length texts))),
          numbered f Add n texts).
Proof.
  induction texts as [|t rest IH]; intros P n.
  - cbn. now rewrite Z.add_0_r.
  - cbn [forallb] in P. apply andb_true_iff in P as [Pt P].
    unfold plain_added in Pt. apply andb_true_iff in Pt as [P1 P2].
    apply negb_true_iff in P1, P2.
    cbn [map]. rewrite (run_cons _ _ _ _ _ (step_add f o n t P1 P2)).
    rewrite (IH P). cbn [bind ret numbered app length].
    rewrite Nat2Z.inj_succ.
    replace (n + 1 + Z.of_nat (length rest))
      with (n + Z.succ (Z.of_nat (length rest))) by lia.
    reflexivity.
Qed.

(** X10. A whole hunk as [git show --unified=0] writes it, the header, the
    deleted lines and then the added lines: with the file set, the deleted
    lines are yielded first, numbered consecutively from the old start,
    then the added lines, numbered consecutively from the new start; the
    counters end right after the last line of each side. *)
Theorem run_git_hunk
        (c : Cursor) (f : string) (old_start new_start : Z) (heading : string)
        (deleted added : list string) :
  cur_file c = Some f ->
  (String.length (str (Z.abs old_start)) <= int_max_str_digits)%nat ->
  (String.length (str (Z.abs new_start)) <= int_max_str_digits)%nat ->
  contains heading "Binary files" = false ->
  forallb plain_deleted deleted = true ->
  forallb plain_added added = true ->
  run c (hunk_header old_start (Z.of_nat (length deleted))
                     new_start (Z.of_nat (length added)) heading
         :: map (append "-") deleted ++ map (append "+") added)
  = Ok (mkCursor (Some f)
                 (Some (old_start + Z.of_nat (length deleted)))
                 (Some (new_start + Z.of_nat (length added))),
        numbered f Del old_start deleted ++ numbered f Add new_start added).
Proof.
  intros F LO LN B PD PA.
  rewrite (run_cons_silent _ _ _ _
             (step_hunk_header_counters c _ _ _ _ heading LO LN B)).
  rewrite F, run_app, (run_deletions f new_start deleted PD old_start).
  cbn [bind]. rewrite (run_additions f _ added PA new_start).
  reflexivity.
Qed.

Lemma run_git_hunk_witness :
  run (mkCursor (Some "f.txt") None None)
      (hunk_header 5 (Z.of_nat (length ["old a"; "old b"]))
                   5 (Z.of_nat (length ["new a"])) ""
       :: map (append "-") ["old a"; "old b"] ++ map (append "+") ["new a"])
  = Ok (mkCursor (Some "f.txt")
                 (Some (5 + Z.of_nat (length ["old a"; "old b"])))
                 (Some (5 + Z.of_nat (length ["new a"]))),
        numbered "f.txt" Del 5 ["old a"; "old b"]
        ++ numbered "f.txt" Add 5 ["new a"]).
Proof.
  apply (run_git_hunk (mkCursor (Some "f.txt") None None) "f.txt" 5 5 ""
           ["old a"; "old b"] ["new a"]);
    [reflexivity|apply Nat.leb_le; vm_compute; reflexivity..
    |reflexivity|reflexivity|reflexivity].
Defined.

(** ** More on [iter_changes] *)

Lemma step_named (all : list string) (c c' : Cursor) (raw : string)
      (out : list ChangeRecord) :
  In raw all ->
  (forall f, cur_file c = Some f -> named_in all f) ->
  step c raw = Ok (c', out) ->
  (forall f, cur_file c' = Some f -> named_in all f) /\
  Forall (fun r => named_in all (file r)) out.
Proof.
  intros I Inv E. destruct (kind raw) eqn:K.
  - rewrite (step_FileSep _ _ K) in E. injection E as <- <-.
    split; [intros f F; discriminate F|constructor].
  - rewrite (step_NewPath _ _ K) in E. injection E as <- <-.
    split; [|constructor]. cbn [set_file cur_file]. intros f F.
    exists raw. auto.
  - rewrite (step_OldPath _ _ K) in E. injection E as <- <-.
    split; [exact Inv|constructor].
  - rewrite (step_Binary _ _ K) in E. injection E as <- <-.
    split; [intros f F; discriminate F|constructor].
  - rewrite (step_Hunk _ _ K) in E. injection E as <- <-.
    split; [exact Inv|constructor].
  - destruct (step_Content_inv _ _ _ _ K E)
      as [[-> ->]|[f [o [n [-> [[-> ->]|[[-> ->]|[-> ->]]]]]]]].
    + split; [exact Inv|constructor].
    + split; [exact Inv|]. repeat constructor. apply Inv. reflexivity.
    + split; [exact Inv|]. repeat constructor. apply Inv. reflexivity.
    + split; [exact Inv|constructor].
Qed.

Lemma run_named (all diff_lines : list string) :
  incl diff_lines all ->
  forall (c c' : Cursor) (out : list ChangeRecord),
    (forall f, cur_file c = Some f -> named_in all f) ->
    run c diff_lines = Ok (c', out) ->
    Forall (fun r => named_in all (file r)) out.
Proof.
  induction diff_lines as [|raw rest IH]; intros Inc c c' out Inv E.
  - injection E as <- <-. constructor.
  - destruct (step_total c raw) as [c1 [out1 [E1 _]]].
    rewrite (run_cons _ _ _ _ _ E1) in E.
    destruct (run c1 rest) as [[c2 out2]|e] eqn:E2; [|discriminate].
    injection E as <- <-.
    destruct (step_named all c c1 raw out1) as [Inv1 F1];
      [apply Inc; now left|exact Inv|exact E1|].
    apply Forall_app. split; [exact F1|].
    apply (IH (fun x Hx => Inc x (or_intror Hx)) c1 c2 out2 Inv1 E2).
Qed.

(** X11. Every record is attributed to a file that a [+++ b/] line of the
    input names: no record carries a path the diff does not contain. *)
Theorem records_attributed_to_named_files (diff_lines : list string) :
  exists out,
    iter_changes diff_lines = Ok out /\
    Forall (fun r => named_in diff_lines (file r)) out.
Proof.
  unfold iter_changes.
  destruct (run_total init diff_lines) as [c [out [R _]]].
  exists out. rewrite R. split; [reflexivity|].
  apply (run_named diff_lines diff_lines (incl_refl _) init c out);
    [intros f F; discriminate F|exact R].
Qed.

(** X12. The records of a prefix of the input are a prefix of the records
    of the whole input: reading more lines only appends records, in the
    order of the lines. *)
Theorem records_of_prefix (xs ys : list string) :
  exists out1 out2,
    iter_changes xs = Ok out1 /\ iter_changes (xs ++ ys) = Ok (out1 ++ out2).
Proof.
  unfold iter_changes.
  destruct (run_total init xs) as [c1 [out1 [R1 _]]].
  destruct (run_total c1 ys) as [c2 [out2 [R2 _]]].
  exists out1, out2. rewrite run_app, R1. cbn [bind ret]. rewrite R2.
  split; reflexivity.
Qed.

Lemma step_passed_over (c : Cursor) (raw : string) :
  passed_over raw -> step c raw = Ok (c, []).
Proof.
  intros [K|[K H]]; [now apply step_OldPath|].
  revert K. unfold kind, step.
  destruct (startswith (rstrip raw NL) "diff --git "); [discriminate|].
  destruct (startswith (rstrip raw NL) "+++ "); [discriminate|].
  destruct (startswith (rstrip raw NL) "--- "); [discriminate|].
  destruct (contains _ _ || startswith _ _); [discriminate|].
  destruct (startswith (rstrip raw NL) "@@ "); [discriminate|].
  intros _. destruct c as [[f|] [o|] [n|]]; cbn [cur_file old_line new_line];
    try reflexivity.
  destruct H as [-> | ->]; [reflexivity|].
  now rewrite orb_true_r.
Qed.

(** X13. Old-path headers, empty lines and the [\ No newline at end of
    file] marker leave no trace: taking such a line out of the input, or
    putting one in anywhere, changes neither the records nor their
    numbers. *)
Theorem passed_over_lines_are_transparent (xs ys : list string) (raw : string) :
  passed_over raw ->
  iter_changes (xs ++ raw :: ys) = iter_changes (xs ++ ys).
Proof.
  intros P. unfold iter_changes. rewrite !run_app.
  destruct (run init xs) as [[c1 out1]|e]; [|reflexivity].
  cbn [bind]. now rewrite (run_cons_silent _ _ _ _ (step_passed_over c1 raw P)).
Qed.

Lemma passed_over_lines_are_transparent_witness :
  iter_changes (["+++ b/f.txt"; "@@ -3 +3 @@"; "-x"]
                ++ "\ No newline at end of file" :: ["+y"])
  = iter_changes (["+++ b/f.txt"; "@@ -3 +3 @@"; "-x"] ++ ["+y"]).
Proof.
  apply (passed_over_lines_are_transparent
           ["+++ b/f.txt"; "@@ -3 +3 @@"; "-x"] ["+y"]
           "\ No newline at end of file").
  right. split; [reflexivity|right; reflexivity].
Defined.
